(** * realros task-environment templates: roscore negotiation and node identity

    A shallow embedding of
      src/realros/templates/task_envs/MyRealTaskEnv.py
      src/realros/templates/task_envs/MyRealTaskGoalEnv.py

    The two constructors talk to code that lives outside these files
    (ros_common, rospy, the robot base classes).  Those calls are recorded as
    events in a trace and their results are taken from a record of
    collaborators, so every statement below is quantified over what the
    outside world answers. *)

From Stdlib Require Import ZArith QArith List String Bool Lia.
From stdpp Require Import base option strings pretty gmap.

Import ListNotations.

(** ** Python values, exceptions and outcomes *)

(** The run-time values that travel through the constructors. *)
Inductive pyval : Type :=
| PyNone
| PyBool (b : bool)
| PyInt (z : Z)
| PyFloat (q : Q)
| PyStr (s : string).

Inductive exn : Type :=
| TypeError
| NotImplementedError
| AttributeError
| ExternalError (what : string).

Inductive outcome (A : Type) : Type :=
| Ok (a : A)
| Raise (e : exn).
Arguments Ok {A} a.
Arguments Raise {A} e.

(** [x is None] and [x is False]: identity against the two singletons. *)
Definition is_None (v : pyval) : bool :=
  match v with PyNone => true | _ => false end.

Definition is_False (v : pyval) : bool :=
  match v with PyBool false => true | _ => false end.

(** [s + v] for a [str] on the left: only another [str] can be appended. *)
Definition str_add (s : string) (v : pyval) : outcome string :=
  match v with
  | PyStr t => Ok (s +:+ t)
  | _ => Raise TypeError
  end.

(** ** gymnasium spaces, as far as the templates build them *)

Record box : Type := Box {
  low : Z;
  high : Z;
  shape : list nat;
  dtype : option string
}.

#[warnings="-register-all"]
Inductive space : Type :=
| SBox (b : box)
| SDict (entries : gmap string space).

(** ** Calls that leave the two files *)

Inductive event : Type :=
| CallLaunchRoscore (port : pyval) (set_new_master_vars default_port : bool)
| CallChangeRosMaster (port : pyval)
| CallIsRoscoreRunning
| Print (msg : string)
| CallInitNode (name : string) (anonymous : bool)
| LogInfo (msg : string)
| CallRobotEnvInit (ros_port seed : pyval) (reset_env_prompt : bool)
    (action_cycle_time : pyval)
| CallRobotGoalEnvInit (ros_port seed : pyval) (reset_env_prompt : bool)
    (action_cycle_time : pyval).

(** What the outside world answers.  [ros_common.launch_roscore],
    [ros_common.change_ros_master], [ros_common.is_roscore_running],
    [rospy.init_node] and the two base-class constructors are not part of the
    two files; each may return or raise. *)
Record collab : Type := Collab {
  launch_roscore : pyval -> bool -> bool -> outcome pyval;
  change_ros_master : pyval -> outcome unit;
  is_roscore_running : outcome pyval;
  init_node : string -> bool -> outcome unit;
  robot_env_init : pyval -> pyval -> bool -> pyval -> outcome unit;
  robot_goal_env_init : pyval -> pyval -> bool -> pyval -> outcome unit
}.

(** ** The object under construction and the machine state *)

(** Attributes the templates assign on [self]; [None] is "not set". *)
Record obj : Type := Obj {
  node_name : option string;
  achieved_goal_space : option space;
  desired_goal_space : option space;
  observation_space : option space
}.

Definition new_obj : obj := Obj None None None None.

Record state : Type := State {
  self : obj;
  trace : list event
}.

Definition init_state : state := State new_obj [].

(** ** A state-and-exception monad *)

Definition M (A : Type) : Type := collab -> state -> outcome A * state.

Definition ret {A} (a : A) : M A := fun _ st => (Ok a, st).

Definition raise {A} (e : exn) : M A := fun _ st => (Raise e, st).

Definition bind {A B} (m : M A) (k : A -> M B) : M B :=
  fun c st =>
    match m c st with
    | (Ok a, st') => k a c st'
    | (Raise e, st') => (Raise e, st')
    end.

#[global] Instance M_ret : MRet M := @ret.
#[global] Instance M_bind : MBind M := fun A B k m => bind m k.

Definition emit (e : event) : M unit :=
  fun _ st => (Ok tt, State (self st) (trace st ++ [e])).

Definition lift {A} (o : outcome A) : M A :=
  fun _ st => (o, st).

Definition ask : M collab := fun c st => (Ok c, st).

Definition modify_self (f : obj -> obj) : M unit :=
  fun _ st => (Ok tt, State (f (self st)) (trace st)).

(** Reading an attribute of [self]; an attribute that was never assigned
    raises [AttributeError]. *)
Definition get_attr {A} (field : obj -> option A) : M A :=
  fun _ st =>
    match field (self st) with
    | Some a => (Ok a, st)
    | None => (Raise AttributeError, st)
    end.

(** One call to a collaborator: log it, then return or raise as it does. *)
Definition call {A} (e : event) (answer : collab -> outcome A) : M A :=
  emit e;; c ← ask; lift (answer c).

Definition set_node_name (s : string) : M unit :=
  modify_self (fun o => Obj (Some s) (achieved_goal_space o)
                            (desired_goal_space o) (observation_space o)).

Definition set_achieved_goal_space (s : space) : M unit :=
  modify_self (fun o => Obj (node_name o) (Some s)
                            (desired_goal_space o) (observation_space o)).

Definition set_desired_goal_space (s : space) : M unit :=
  modify_self (fun o => Obj (node_name o) (achieved_goal_space o)
                            (Some s) (observation_space o)).

Definition set_observation_space (s : space) : M unit :=
  modify_self (fun o => Obj (node_name o) (achieved_goal_space o)
                            (desired_goal_space o) (Some s)).

(** ** Keyword arguments of the constructors

    A field is [None] when the caller left the keyword out; the defaults of
    the signature are then used:
    [new_roscore=True, roscore_port=None, seed=None, reset_env_prompt=False,
     action_cycle_time=0.0, default_port=False]. *)
Record kwargs : Type := Kwargs {
  kw_new_roscore : option bool;
  kw_roscore_port : option pyval;
  kw_seed : option pyval;
  kw_reset_env_prompt : option bool;
  kw_action_cycle_time : option pyval;
  kw_default_port : option bool
}.

Definition no_kwargs : kwargs := Kwargs None None None None None None.

Definition new_roscore (k : kwargs) : bool := default true (kw_new_roscore k).
Definition roscore_port (k : kwargs) : pyval := default PyNone (kw_roscore_port k).
Definition seed (k : kwargs) : pyval := default PyNone (kw_seed k).
Definition reset_env_prompt (k : kwargs) : bool :=
  default false (kw_reset_env_prompt k).
(** [0.0]; the value is only handed on to the base class. *)
Definition action_cycle_time (k : kwargs) : pyval :=
  default (PyFloat 0) (kw_action_cycle_time k).
Definition default_port (k : kwargs) : bool := default false (kw_default_port k).

(** ** Methods and method resolution

    A method is its body together with the number of arguments its
    signature takes besides [self]: at least [min_args] (the parameters
    without a default), at most [max_args].  A call is given by the values it
    binds, in parameter order; binding happens before the body runs, and a
    call that binds too few or too many raises [TypeError]. *)
Record pymethod : Type := PyMethod {
  min_args : nat;
  max_args : nat;
  body : list pyval -> M pyval
}.

Definition accepts (m : pymethod) (args : list pyval) : bool :=
  (min_args m <=? length args)%nat && (length args <=? max_args m)%nat.

Definition invoke (m : pymethod) (args : list pyval) : M pyval :=
  if accepts m args then body m args else raise TypeError.

(** The extension points are looked up in the subclass first and then in the
    template.  [None] says that the name is neither: it is then not an
    extension point of the template, and how it is resolved (the constructor
    and the launch helper given below, or a base class outside the two files)
    is not the business of this table. *)
Definition resolve (subclass template : gmap string pymethod) (name : string)
  : option pymethod :=
  (subclass ∪ template) !! name.

Definition call_method (subclass template : gmap string pymethod)
    (name : string) (args : list pyval) : option (M pyval) :=
  match resolve subclass template name with
  | Some m => Some (invoke m args)
  | None => None
  end.

(** ** MyRealTaskEnv.py *)
Module MyRealTaskEnv.

(** [_launch_roscore(port=None, set_new_master_vars=False, default_port=False)],
    lines 248-266. *)
Definition _launch_roscore (port : pyval) (set_new_master_vars default_port : bool)
  : M pyval :=
  let port := if is_None port then PyInt 11311 else port in
  ros_port ← call (CallLaunchRoscore port set_new_master_vars default_port)
                  (fun c => launch_roscore c port set_new_master_vars default_port);
  call (CallChangeRosMaster ros_port) (fun c => change_ros_master c ros_port);;
  mret ros_port.

(** Lines 62-89: the local [ros_port] after the four-way branch. *)
Definition negotiate (k : kwargs) : M pyval :=
  let ros_port := PyNone in
  if default_port k then
    _launch_roscore PyNone false (default_port k)
  else if new_roscore k then
    _launch_roscore (roscore_port k) false false
  else if negb (is_None (roscore_port k)) then
    let ros_port := roscore_port k in
    call (CallChangeRosMaster ros_port) (fun c => change_ros_master c ros_port);;
    mret ros_port
  else
    running ← call CallIsRoscoreRunning is_roscore_running;
    if is_False running then
      emit (Print "roscore is not running! Launching a new roscore!");;
      _launch_roscore (roscore_port k) false false
    else
      mret ros_port.

(** Lines 92-95: [self.node_name]. *)
Definition assign_node_name (ros_port : pyval) : M string :=
  if negb (is_None ros_port) then
    name ← lift (str_add ("TaskEnv" +:+ "_") ros_port);
    set_node_name name;;
    mret name
  else
    set_node_name "TaskEnv";;
    mret "TaskEnv".

(** [__init__], lines 30-142. *)
Definition __init__ (k : kwargs) : M unit :=
  ros_port ← negotiate k;
  name ← assign_node_name ros_port;
  call (CallInitNode name true) (fun c => init_node c name true);;
  emit (LogInfo "Starting Custom Task Env");;
  call (CallRobotEnvInit ros_port (seed k) (reset_env_prompt k) (action_cycle_time k))
       (fun c => robot_env_init c ros_port (seed k) (reset_env_prompt k)
                   (action_cycle_time k));;
  emit (LogInfo "Finished Init of Custom Task Env").

(** Lines 147-243: every body is [raise NotImplementedError()]. *)

(** [_set_init_params(self, options=None)]. *)
Definition _set_init_params : pymethod :=
  PyMethod 0 1 (fun _ => raise NotImplementedError).
(** [_set_action(self, action)]. *)
Definition _set_action : pymethod :=
  PyMethod 1 1 (fun _ => raise NotImplementedError).
(** [_get_observation(self)]. *)
Definition _get_observation : pymethod :=
  PyMethod 0 0 (fun _ => raise NotImplementedError).
(** [_get_reward(self, info=None)]. *)
Definition _get_reward : pymethod :=
  PyMethod 0 1 (fun _ => raise NotImplementedError).
(** [_compute_terminated(self, info=None)]. *)
Definition _compute_terminated : pymethod :=
  PyMethod 0 1 (fun _ => raise NotImplementedError).
(** [_compute_truncated(self, info=None)]. *)
Definition _compute_truncated : pymethod :=
  PyMethod 0 1 (fun _ => raise NotImplementedError).
(** [_get_params(self)]. *)
Definition _get_params : pymethod :=
  PyMethod 0 0 (fun _ => raise NotImplementedError).

(** The extension points of the class body (its other two methods,
    [__init__] and [_launch_roscore], are the definitions above). *)
Definition extension_points : gmap string pymethod :=
  <["_set_init_params" := _set_init_params]>
  (<["_set_action" := _set_action]>
  (<["_get_observation" := _get_observation]>
  (<["_get_reward" := _get_reward]>
  (<["_compute_terminated" := _compute_terminated]>
  (<["_compute_truncated" := _compute_truncated]>
  (<["_get_params" := _get_params]> ∅)))))).

End MyRealTaskEnv.

(** ** MyRealTaskGoalEnv.py *)
Module MyRealTaskGoalEnv.

(** [_launch_roscore], lines 287-305. *)
Definition _launch_roscore (port : pyval) (set_new_master_vars default_port : bool)
  : M pyval :=
  let port := if is_None port then PyInt 11311 else port in
  ros_port ← call (CallLaunchRoscore port set_new_master_vars default_port)
                  (fun c => launch_roscore c port set_new_master_vars default_port);
  call (CallChangeRosMaster ros_port) (fun c => change_ros_master c ros_port);;
  mret ros_port.

(** Lines 62-89. *)
Definition negotiate (k : kwargs) : M pyval :=
  let ros_port := PyNone in
  if default_port k then
    _launch_roscore PyNone false (default_port k)
  else if new_roscore k then
    _launch_roscore (roscore_port k) false false
  else if negb (is_None (roscore_port k)) then
    let ros_port := roscore_port k in
    call (CallChangeRosMaster ros_port) (fun c => change_ros_master c ros_port);;
    mret ros_port
  else
    running ← call CallIsRoscoreRunning is_roscore_running;
    if is_False running then
      emit (Print "roscore is not running! Launching a new roscore!");;
      _launch_roscore (roscore_port k) false false
    else
      mret ros_port.

(** Lines 92-95. *)
Definition assign_node_name (ros_port : pyval) : M string :=
  if negb (is_None ros_port) then
    name ← lift (str_add ("TaskEnv" +:+ "_") ros_port);
    set_node_name name;;
    mret name
  else
    set_node_name "TaskEnv";;
    mret "TaskEnv".

(** Lines 128-138: the goal spaces and the dictionary observation space. *)
Definition goal_box : space := SBox (Box 0 1 [3%nat] None).

Definition observation_dict (achieved desired : space) : space :=
  SDict (<["observation" := SBox (Box 0 1 [5%nat] (Some "np.float32"))]>
        (<["achieved_goal" := achieved]>
        (<["desired_goal" := desired]> ∅))).

Definition declare_spaces : M unit :=
  set_achieved_goal_space goal_box;;
  set_desired_goal_space goal_box;;
  achieved ← get_attr achieved_goal_space;
  desired ← get_attr desired_goal_space;
  set_observation_space (observation_dict achieved desired).

(** [__init__], lines 30-156. *)
Definition __init__ (k : kwargs) : M unit :=
  ros_port ← negotiate k;
  name ← assign_node_name ros_port;
  call (CallInitNode name true) (fun c => init_node c name true);;
  emit (LogInfo "Starting Custom Task Env");;
  declare_spaces;;
  call (CallRobotGoalEnvInit ros_port (seed k) (reset_env_prompt k)
          (action_cycle_time k))
       (fun c => robot_goal_env_init c ros_port (seed k) (reset_env_prompt k)
                   (action_cycle_time k));;
  emit (LogInfo "Finished Init of Custom Task Env").

(** Lines 161-282: every body is [raise NotImplementedError()]. *)

(** [_set_init_params(self, options=None)]. *)
Definition _set_init_params : pymethod :=
  PyMethod 0 1 (fun _ => raise NotImplementedError).
(** [_set_action(self, action)]. *)
Definition _set_action : pymethod :=
  PyMethod 1 1 (fun _ => raise NotImplementedError).
(** [_get_observation(self)]. *)
Definition _get_observation : pymethod :=
  PyMethod 0 0 (fun _ => raise NotImplementedError).
(** [_get_achieved_goal(self)]. *)
Definition _get_achieved_goal : pymethod :=
  PyMethod 0 0 (fun _ => raise NotImplementedError).
(** [_get_desired_goal(self)]. *)
Definition _get_desired_goal : pymethod :=
  PyMethod 0 0 (fun _ => raise NotImplementedError).
(** [compute_reward(self, achieved_goal, desired_goal, info)]. *)
Definition compute_reward : pymethod :=
  PyMethod 3 3 (fun _ => raise NotImplementedError).
(** [compute_terminated(self, achieved_goal, desired_goal, info)]. *)
Definition compute_terminated : pymethod :=
  PyMethod 3 3 (fun _ => raise NotImplementedError).
(** [compute_truncated(self, achieved_goal, desired_goal, info)]. *)
Definition compute_truncated : pymethod :=
  PyMethod 3 3 (fun _ => raise NotImplementedError).
(** [_get_params(self)]. *)
Definition _get_params : pymethod :=
  PyMethod 0 0 (fun _ => raise NotImplementedError).

(** The extension points of the class body (its other two methods,
    [__init__] and [_launch_roscore], are the definitions above). *)
Definition extension_points : gmap string pymethod :=
  <["_set_init_params" := _set_init_params]>
  (<["_set_action" := _set_action]>
  (<["_get_observation" := _get_observation]>
  (<["_get_achieved_goal" := _get_achieved_goal]>
  (<["_get_desired_goal" := _get_desired_goal]>
  (<["compute_reward" := compute_reward]>
  (<["compute_terminated" := compute_terminated]>
  (<["compute_truncated" := compute_truncated]>
  (<["_get_params" := _get_params]> ∅)))))))).

End MyRealTaskGoalEnv.

(** ** Running a computation and looking at what it did *)

Definition run {A} (m : M A) (c : collab) : outcome A * state := m c init_state.

Definition result {A} (m : M A) (c : collab) : outcome A := fst (run m c).
Definition calls {A} (m : M A) (c : collab) : list event := trace (snd (run m c)).
Definition object {A} (m : M A) (c : collab) : obj := self (snd (run m c)).

Definition is_launch (e : event) : bool :=
  match e with CallLaunchRoscore _ _ _ => true | _ => false end.

Definition is_rebind (e : event) : bool :=
  match e with CallChangeRosMaster _ => true | _ => false end.

Definition is_negotiation_call (e : event) : bool :=
  is_launch e || is_rebind e.

Definition launches (t : list event) : nat := length (filter is_launch t).

(** The launch and rebind calls of a trace, in order. *)
Definition negotiation_calls (t : list event) : list event :=
  filter is_negotiation_call t.

(** ** The negotiation as section 4.1 words it *)

Inductive action : Type :=
| DefaultPortLaunch
| NewProcessLaunch
| AttachToGivenPort
| AutoDetect.

(** Follows the spec's words: (a) dominates (b) dominates (c) dominates (d). *)
Definition spec_select_action (force_default force_new : bool) (port : pyval)
  : action :=
  if force_default then DefaultPortLaunch
  else if force_new then NewProcessLaunch
  else if is_None port then AutoDetect
  else AttachToGivenPort.

(** The call that opens each action; the four are pairwise different. *)
Definition opening_call (a : action) (port : pyval) : event :=
  match a with
  | DefaultPortLaunch => CallLaunchRoscore (PyInt 11311) false true
  | NewProcessLaunch =>
      CallLaunchRoscore (if is_None port then PyInt 11311 else port) false false
  | AttachToGivenPort => CallChangeRosMaster port
  | AutoDetect => CallIsRoscoreRunning
  end.

(** Follows the spec's words (section 4.1): the operations [launch],
    [rebind] and [isRunning], and the four actions built from them. *)
Definition spec_launch (port : pyval) (forceNewMaster useDefaultPort : bool)
  : M pyval :=
  let bound := if is_None port then PyInt 11311 else port in
  resolved ← call (CallLaunchRoscore bound forceNewMaster useDefaultPort)
                  (fun c => launch_roscore c bound forceNewMaster useDefaultPort);
  call (CallChangeRosMaster resolved) (fun c => change_ros_master c resolved);;
  mret resolved.

Definition spec_rebind (port : pyval) : M unit :=
  call (CallChangeRosMaster port) (fun c => change_ros_master c port).

Definition spec_isRunning : M pyval :=
  call CallIsRoscoreRunning is_roscore_running.

Definition spec_perform (a : action) (port : pyval) : M pyval :=
  match a with
  | DefaultPortLaunch => spec_launch (PyInt 11311) false true
  | NewProcessLaunch => spec_launch port false false
  | AttachToGivenPort => spec_rebind port;; mret port
  | AutoDetect =>
      running ← spec_isRunning;
      if is_False running then
        emit (Print "roscore is not running! Launching a new roscore!");;
        spec_launch PyNone false false
      else mret PyNone
  end.

(** Follows the spec's words (section 4.2): [resolveName] on
    [integer|null]. *)
Definition spec_resolveName (resolvedPort : option Z) : string :=
  match resolvedPort with
  | Some port => "TaskEnv_" +:+ pretty port
  | None => "TaskEnv"
  end.

(** What lines 92-95 leave in [self.node_name], by the outcome of the
    negotiation: [None] when the line is not reached or the concatenation
    raises. *)
Definition assigned_name (resolved : outcome pyval) : option string :=
  match resolved with
  | Ok PyNone => Some "TaskEnv"
  | Ok (PyStr p) => Some ("TaskEnv_" +:+ p)
  | _ => None
  end.

(** ** The two templates side by side *)

Inductive template : Type := Plain | Goal.

Definition extension_points_of (t : template) : gmap string pymethod :=
  match t with
  | Plain => MyRealTaskEnv.extension_points
  | Goal => MyRealTaskGoalEnv.extension_points
  end.

Definition init_of (t : template) : kwargs -> M unit :=
  match t with
  | Plain => MyRealTaskEnv.__init__
  | Goal => MyRealTaskGoalEnv.__init__
  end.

Definition negotiate_of (t : template) : kwargs -> M pyval :=
  match t with
  | Plain => MyRealTaskEnv.negotiate
  | Goal => MyRealTaskGoalEnv.negotiate
  end.

Definition launch_of (t : template) : pyval -> bool -> bool -> M pyval :=
  match t with
  | Plain => MyRealTaskEnv._launch_roscore
  | Goal => MyRealTaskGoalEnv._launch_roscore
  end.




Definition false_or_unset (flag : option bool) : Prop :=
  flag = None \/ flag = Some false.

Definition none_or_unset (arg : option pyval) : Prop :=
  arg = None \/ arg = Some PyNone.

Definition is_init_node (e : event) : bool :=
  match e with CallInitNode _ _ => true | _ => false end.

(** Calls that neither launch, rebind nor register a node. *)
Definition quiet_call (e : event) : Prop :=
  is_launch e = false /\ is_rebind e = false /\ is_init_node e = false.

(** ** Sample worlds *)

(** [str(port)] as a launcher would print the port it bound. *)
Definition port_text (port : pyval) : pyval :=
  match port with
  | PyInt z => PyStr (pretty z)
  | other => other
  end.

(** Every call returns; the launcher answers with the port as text; the
    probe finds [running]. *)
Definition text_world (running : bool) : collab :=
  Collab (fun port _ _ => Ok (port_text port))
         (fun _ => Ok tt)
         (Ok (PyBool running))
         (fun _ _ => Ok tt)
         (fun _ _ _ _ => Ok tt)
         (fun _ _ _ _ => Ok tt).

(** As [text_world], but the launcher hands back the very value it was
    given. *)
Definition echo_world (running : bool) : collab :=
  Collab (fun port _ _ => Ok port)
         (fun _ => Ok tt)
         (Ok (PyBool running))
         (fun _ _ => Ok tt)
         (fun _ _ _ _ => Ok tt)
         (fun _ _ _ _ => Ok tt).

Definition attach_kwargs : kwargs :=
  Kwargs (Some false) (Some (PyStr "11312")) None None None (Some false).

Definition default_port_kwargs : kwargs :=
  Kwargs None None None None None (Some true).

Definition autodetect_kwargs : kwargs :=
  Kwargs (Some false) None None None None None.

(** ** Further vocabulary for the constructors *)

Definition is_probe (e : event) : bool :=
  match e with CallIsRoscoreRunning => true | _ => false end.

Definition is_notice (e : event) : bool :=
  match e with Print _ => true | _ => false end.

(** The calls the negotiation can make. *)
Definition early_call (e : event) : Prop :=
  match e with
  | CallLaunchRoscore _ _ _ | CallChangeRosMaster _
  | CallIsRoscoreRunning | Print _ => True
  | _ => False
  end.

(** The calls a constructor makes once the port is negotiated. *)
Definition late_call (e : event) : Prop :=
  match e with
  | CallInitNode _ _ | LogInfo _
  | CallRobotEnvInit _ _ _ _ | CallRobotGoalEnvInit _ _ _ _ => True
  | _ => False
  end.

Definition rebinds (t : list event) : nat := length (filter is_rebind t).

(** The flags under which the fourth branch of the negotiation is taken. *)
Definition autodetecting (k : kwargs) : bool :=
  negb (default_port k) && negb (new_roscore k) && is_None (roscore_port k).

(** The [super().__init__] call of each template, and what the world
    answers to it. *)
Definition base_call (t : template) (ros_port seed : pyval)
    (reset_env_prompt : bool) (action_cycle_time : pyval) : event :=
  match t with
  | Plain => CallRobotEnvInit ros_port seed reset_env_prompt action_cycle_time
  | Goal => CallRobotGoalEnvInit ros_port seed reset_env_prompt action_cycle_time
  end.

Definition base_answer (t : template) (c : collab) (ros_port seed : pyval)
    (reset_env_prompt : bool) (action_cycle_time : pyval) : outcome unit :=
  match t with
  | Plain => robot_env_init c ros_port seed reset_env_prompt action_cycle_time
  | Goal => robot_goal_env_init c ros_port seed reset_env_prompt action_cycle_time
  end.

(** Reads a call to the goal base class as the same call to the plain one. *)
Definition as_plain (e : event) : event :=
  match e with
  | CallRobotGoalEnvInit p s r a => CallRobotEnvInit p s r a
  | other => other
  end.

(** A world in which every call returns and the launcher answers with
    text. *)
Definition well_behaved (c : collab) : Prop :=
  (forall p s d, exists q, launch_roscore c p s d = Ok (PyStr q))
  /\ (forall p, change_ros_master c p = Ok tt)
  /\ (exists v, is_roscore_running c = Ok v)
  /\ (forall n a, init_node c n a = Ok tt)
  /\ (forall p s r a, robot_env_init c p s r a = Ok tt)
  /\ (forall p s r a, robot_goal_env_init c p s r a = Ok tt).

(** The launcher answers [answer] whatever it is asked. *)
Definition answering_world (answer : pyval) : collab :=
  Collab (fun _ _ _ => Ok answer)
         (fun _ => Ok tt)
         (Ok (PyBool true))
         (fun _ _ => Ok tt)
         (fun _ _ _ _ => Ok tt)
         (fun _ _ _ _ => Ok tt).

(** The node registration fails. *)
Definition unregistered_world : collab :=
  Collab (fun port _ _ => Ok (port_text port))
         (fun _ => Ok tt)
         (Ok (PyBool true))
         (fun _ _ => Raise (ExternalError "ROSInitException"))
         (fun _ _ _ _ => Ok tt)
         (fun _ _ _ _ => Ok tt).

(** The launcher fails. *)
Definition launchless_world : collab :=
  Collab (fun _ _ _ => Raise (ExternalError "roscore"))
         (fun _ => Ok tt)
         (Ok (PyBool false))
         (fun _ _ => Ok tt)
         (fun _ _ _ _ => Ok tt)
         (fun _ _ _ _ => Ok tt).

Definition int_port_kwargs : kwargs :=
  Kwargs (Some false) (Some (PyInt 11312)) None None None (Some false).

Definition new_roscore_kwargs : kwargs :=
  Kwargs (Some true) (Some (PyStr "11312")) None None None None.

Definition all_flags_kwargs : kwargs :=
  Kwargs (Some true) (Some (PyStr "11312")) None None None (Some true).

(** * Proofs *)

(** ** Stepping through the monad *)

Ltac unfold_monad :=
  unfold call, mbind, M_bind, bind, emit, ask, lift, mret, M_ret, ret, raise,
    set_node_name, set_achieved_goal_space, set_desired_goal_space,
    set_observation_space, modify_self, get_attr in *.

(** Case analysis on what the world answers to the calls still in the goal. *)
Ltac ask_world c :=
  repeat (simpl;
    match goal with
    | |- context [launch_roscore c ?p ?a ?b] =>
        destruct (launch_roscore c p a b) as [[| | | |]|] eqn:?
    | |- context [change_ros_master c ?p] =>
        destruct (change_ros_master c p) as [[]|] eqn:?
    | |- context [is_roscore_running c] =>
        destruct (is_roscore_running c) as [[|[|]| | |]|] eqn:?
    | |- context [init_node c ?n ?a] =>
        destruct (init_node c n a) as [[]|] eqn:?
    | |- context [robot_env_init c ?p ?s ?r ?a] =>
        destruct (robot_env_init c p s r a) as [[]|] eqn:?
    | |- context [robot_goal_env_init c ?p ?s ?r ?a] =>
        destruct (robot_goal_env_init c p s r a) as [[]|] eqn:?
    end).

Ltac flags k :=
  destruct (default_port k) eqn:?, (new_roscore k) eqn:?,
    (roscore_port k) as [| | | |] eqn:?.

Lemma bind_run {A B} (m : M A) (f : A -> M B) (c : collab) (st : state) :
  (m ≫= f) c st =
  match m c st with
  | (Ok a, st') => f a c st'
  | (Raise e, st') => (Raise e, st')
  end.
Proof. reflexivity. Qed.

(** ** The launch helper *)

Lemma launch_run (c : collab) (st : state) (port : pyval) (smv dp : bool) :
  MyRealTaskEnv._launch_roscore port smv dp c st =
  let p := if is_None port then PyInt 11311 else port in
  let t1 := trace st ++ [CallLaunchRoscore p smv dp] in
  match launch_roscore c p smv dp with
  | Raise e => (Raise e, State (self st) t1)
  | Ok v =>
      (match change_ros_master c v with
       | Raise e => Raise e
       | Ok _ => Ok v
       end, State (self st) (t1 ++ [CallChangeRosMaster v]))
  end.
Proof.
  unfold MyRealTaskEnv._launch_roscore. unfold_monad. simpl.
  destruct (launch_roscore c _ smv dp) as [v|e]; simpl; [|reflexivity].
  destruct (change_ros_master c v) as [[]|e]; reflexivity.
Qed.

(** The two files carry the same helper and the same negotiation. *)
Lemma goal_launch_same :
  MyRealTaskGoalEnv._launch_roscore = MyRealTaskEnv._launch_roscore.
Proof. reflexivity. Qed.

Lemma goal_negotiate_same :
  MyRealTaskGoalEnv.negotiate = MyRealTaskEnv.negotiate.
Proof. reflexivity. Qed.

Lemma goal_assign_node_name_same :
  MyRealTaskGoalEnv.assign_node_name = MyRealTaskEnv.assign_node_name.
Proof. reflexivity. Qed.

Lemma launch_of_plain (t : template) : launch_of t = MyRealTaskEnv._launch_roscore.
Proof. destruct t; [reflexivity | apply goal_launch_same]. Qed.

Lemma negotiate_of_plain (t : template) : negotiate_of t = MyRealTaskEnv.negotiate.
Proof. destruct t; [reflexivity | apply goal_negotiate_same]. Qed.

(** ** The negotiation *)

(** The negotiation only talks to the world: [self] is left as it was and
    the trace only grows. *)
Lemma negotiate_frame (k : kwargs) (c : collab) (st : state) :
  exists more,
    snd (MyRealTaskEnv.negotiate k c st) = State (self st) (trace st ++ more).
Proof.
  unfold MyRealTaskEnv.negotiate.
  destruct (default_port k), (new_roscore k), (is_None (roscore_port k)); simpl;
    rewrite ?bind_run, ?launch_run; simpl.
  all: try (destruct (launch_roscore c _ _ _); simpl;
            rewrite <- ?app_assoc; eexists; reflexivity).
  - unfold_monad; simpl.
    destruct (is_roscore_running c) as [v|e]; simpl.
    + destruct (is_False v); simpl.
      * rewrite launch_run; simpl.
        destruct (launch_roscore c _ _ _); simpl;
          rewrite <- ?app_assoc; eexists; reflexivity.
      * eexists; reflexivity.
    + eexists; reflexivity.
  - unfold_monad; simpl.
    destruct (change_ros_master c _) as [[]|e]; eexists; reflexivity.
Qed.

Lemma negotiate_self (k : kwargs) (c : collab) :
  object (MyRealTaskEnv.negotiate k) c = new_obj.
Proof.
  unfold object, run.
  destruct (negotiate_frame k c init_state) as [more ->]. reflexivity.
Qed.

Lemma negotiate_head (k : kwargs) (c : collab) :
  head (calls (MyRealTaskEnv.negotiate k) c)
  = Some (opening_call
            (spec_select_action (default_port k) (new_roscore k) (roscore_port k))
            (roscore_port k)).
Proof.
  unfold calls, run, MyRealTaskEnv.negotiate, spec_select_action.
  destruct (default_port k), (new_roscore k), (is_None (roscore_port k)) eqn:Hp;
    simpl; rewrite ?bind_run, ?launch_run; simpl; rewrite ?Hp.
  all: try (destruct (launch_roscore c _ _ _); reflexivity).
  - unfold_monad; simpl.
    destruct (is_roscore_running c) as [v|e]; simpl; [|reflexivity].
    destruct (is_False v); simpl; [|reflexivity].
    rewrite launch_run; simpl. destruct (launch_roscore c _ _ _); reflexivity.
  - unfold_monad; simpl. destruct (change_ros_master c _) as [[]|e]; reflexivity.
Qed.

Lemma negotiate_launches (k : kwargs) (c : collab) :
  launches (calls (MyRealTaskEnv.negotiate k) c) <= 1.
Proof.
  unfold launches, calls, run, MyRealTaskEnv.negotiate.
  destruct (default_port k), (new_roscore k), (is_None (roscore_port k));
    simpl; rewrite ?bind_run, ?launch_run; simpl.
  all: try (destruct (launch_roscore c _ _ _); simpl; lia).
  - unfold_monad; simpl.
    destruct (is_roscore_running c) as [v|e]; simpl; [|lia].
    destruct (is_False v); simpl; [|lia].
    rewrite launch_run; simpl. destruct (launch_roscore c _ _ _); simpl; lia.
  - unfold_monad; simpl. destruct (change_ros_master c _) as [[]|e]; simpl; lia.
Qed.

(** ** What the constructors do once the port is resolved *)

Ltac quiet_list := repeat constructor.

(** The calls of a constructor are those of the negotiation, then - if a name
    could be formed - one node registration under that name with
    [anonymous=True], then calls that neither launch, rebind nor register. *)
Lemma init_shape (t : template) (k : kwargs) (c : collab) :
  exists rest,
    calls (init_of t k) c = calls (MyRealTaskEnv.negotiate k) c ++ rest
    /\ node_name (object (init_of t k) c)
       = assigned_name (result (MyRealTaskEnv.negotiate k) c)
    /\ match assigned_name (result (MyRealTaskEnv.negotiate k) c) with
       | None => rest = []
       | Some n =>
           exists more, rest = CallInitNode n true :: more /\ Forall quiet_call more
       end
    /\ match result (MyRealTaskEnv.negotiate k) c with
       | Raise e => result (init_of t k) c = Raise e
       | Ok PyNone | Ok (PyStr _) => True
       | Ok _ => result (init_of t k) c = Raise TypeError
       end.
Proof.
  unfold calls, object, result, run.
  destruct (negotiate_frame k c init_state) as [more Hst]. simpl in Hst.
  destruct t; simpl;
    unfold MyRealTaskEnv.__init__, MyRealTaskGoalEnv.__init__;
    rewrite ?goal_negotiate_same, bind_run;
    destruct (MyRealTaskEnv.negotiate k c init_state) as [[p|e] st1];
    simpl in Hst; subst st1; simpl;
    try (exists []; rewrite app_nil_r; repeat split; reflexivity).
  all: unfold MyRealTaskEnv.assign_node_name, MyRealTaskGoalEnv.assign_node_name,
         MyRealTaskGoalEnv.declare_spaces; unfold_monad.
  all: destruct p; simpl;
    try (exists []; rewrite app_nil_r; repeat split; reflexivity).
  all: ask_world c; rewrite <- ?app_assoc; simpl;
    eexists; (split; [reflexivity|]); (split; [reflexivity|]);
    (split; [|exact I]); eexists; (split; [reflexivity|]); quiet_list.
Qed.

(** ** Counting over traces *)

Lemma quiet_no_launch (l : list event) :
  Forall quiet_call l -> launches l = 0.
Proof.
  unfold launches.
  induction 1 as [|e l [Hl _] _ IH]; [reflexivity|].
  rewrite filter_cons_False; [exact IH|].
  rewrite Hl. exact id.
Qed.

Lemma quiet_no_negotiation (l : list event) :
  Forall quiet_call l -> negotiation_calls l = [].
Proof.
  unfold negotiation_calls.
  induction 1 as [|e l (Hl & Hr & _) _ IH]; [reflexivity|].
  rewrite filter_cons_False; [exact IH|].
  unfold is_negotiation_call. rewrite Hl, Hr. exact id.
Qed.

Lemma launches_app (l r : list event) :
  launches (l ++ r) = launches l + launches r.
Proof. unfold launches. rewrite filter_app. apply length_app. Qed.

(** What follows the negotiation launches nothing and rebinds nothing. *)
Lemma init_calls (t : template) (k : kwargs) (c : collab) :
  exists rest,
    calls (init_of t k) c = calls (MyRealTaskEnv.negotiate k) c ++ rest
    /\ launches rest = 0
    /\ negotiation_calls rest = [].
Proof.
  destruct (init_shape t k c) as (rest & Hcalls & _ & Hrest & _).
  exists rest. split; [exact Hcalls|].
  destruct (assigned_name _) as [n|].
  - destruct Hrest as (more & -> & Hq). split.
    + change (launches (CallInitNode n true :: more)) with (launches more).
      now apply quiet_no_launch.
    + change (negotiation_calls (CallInitNode n true :: more))
        with (negotiation_calls more).
      now apply quiet_no_negotiation.
  - subst rest. split; reflexivity.
Qed.

Lemma opening_call_inj (a b : action) (port : pyval) :
  opening_call a port = opening_call b port -> a = b.
Proof. destruct a, b; simpl; intro H; congruence. Qed.

(** ** Claims *)

Lemma negotiate_performs (k : kwargs) (c : collab) (st : state) :
  MyRealTaskEnv.negotiate k c st
  = spec_perform
      (spec_select_action (default_port k) (new_roscore k) (roscore_port k))
      (roscore_port k) c st.
Proof.
  unfold MyRealTaskEnv.negotiate, spec_select_action.
  destruct (default_port k); [reflexivity|].
  destruct (new_roscore k); [reflexivity|].
  destruct (roscore_port k); reflexivity.
Qed.

Lemma perform_head (a : action) (port : pyval) (c : collab) :
  head (calls (spec_perform a port) c) = Some (opening_call a port).
Proof.
  unfold calls, run.
  destruct a; simpl; unfold spec_launch, spec_rebind, spec_isRunning;
    unfold_monad; simpl.
  - now destruct (launch_roscore c _ _ _) as [v|e];
      [destruct (change_ros_master c v) as [[]|e]|].
  - now destruct (launch_roscore c _ _ _) as [v|e];
      [destruct (change_ros_master c v) as [[]|e]|].
  - now destruct (change_ros_master c port) as [[]|e].
  - destruct (is_roscore_running c) as [v|e]; simpl; [|reflexivity].
    destruct (is_False v); simpl; [|reflexivity].
    now destruct (launch_roscore c _ _ _) as [w|e];
      [destruct (change_ros_master c w) as [[]|e]|].
Qed.

(** C1. Whatever flags are passed, and for both templates, the negotiation
    of the constructor is the one action that the priority order
    default_port > new_roscore > roscore_port > auto-detect selects: it runs
    as that action does, call for call and with the same result, from any
    state, and as no other action does (the four open with pairwise different
    calls).  The construction then goes on with calls that neither launch nor
    rebind, so that the launcher is called at most once in all. *)
Theorem negotiation_priority (t : template) (k : kwargs) (c : collab) :
  let a := spec_select_action (default_port k) (new_roscore k) (roscore_port k) in
  (forall st : state,
     negotiate_of t k c st = spec_perform a (roscore_port k) c st)
  /\ (forall b : action,
        b <> a ->
        calls (spec_perform b (roscore_port k)) c <> calls (negotiate_of t k) c)
  /\ (exists rest : list event,
        calls (init_of t k) c = calls (spec_perform a (roscore_port k)) c ++ rest
        /\ launches rest = 0
        /\ negotiation_calls rest = [])
  /\ head (calls (init_of t k) c) = Some (opening_call a (roscore_port k))
  /\ (forall b : action,
        head (calls (init_of t k) c) = Some (opening_call b (roscore_port k))
        <-> b = a)
  /\ launches (calls (init_of t k) c) <= 1.
Proof.
  intro a. rewrite negotiate_of_plain.
  destruct (init_calls t k c) as (rest & Hcalls & Hrest & Hquiet).
  pose proof (negotiate_head k c) as Hhead.
  pose proof (negotiate_launches k c) as Hone.
  assert (Hsame : calls (MyRealTaskEnv.negotiate k) c
                  = calls (spec_perform a (roscore_port k)) c).
  { unfold calls, run. now rewrite negotiate_performs. }
  assert (Hopen : head (calls (init_of t k) c)
                  = Some (opening_call a (roscore_port k))).
  { rewrite Hcalls.
    destruct (calls (MyRealTaskEnv.negotiate k) c) as [|e l]; [discriminate|].
    exact Hhead. }
  split; [intros st; apply negotiate_performs|].
  split; [|split; [|split; [exact Hopen|split]]].
  - intros b Hb Heq. apply Hb.
    apply (opening_call_inj b a (roscore_port k)).
    assert (Hheads : head (calls (spec_perform b (roscore_port k)) c)
                     = head (calls (spec_perform a (roscore_port k)) c))
      by now rewrite Heq, Hsame.
    rewrite !perform_head in Hheads. now injection Hheads.
  - exists rest. rewrite <- Hsame. now repeat split.
  - intro b. rewrite Hopen. split.
    + intro H. injection H as H. symmetry. eapply opening_call_inj, H.
    + now intros ->.
  - rewrite Hcalls, launches_app, Hrest. lia.
Qed.

(** C8. The launch helper of either template first calls the launcher,
    with port 11311 when none was given; once the launcher has answered with
    a port, the only further call is the rebind to that very port, and that
    port is what the helper returns unless the rebind itself raises. *)
Theorem launch_defaults_then_rebinds
    (t : template) (port : pyval) (smv dp : bool) (c : collab) (st : state) :
  let asked := if is_None port then PyInt 11311 else port in
  let '(r, st') := launch_of t port smv dp c st in
  self st' = self st
  /\ (port = PyNone -> asked = PyInt 11311)
  /\ match launch_roscore c asked smv dp with
     | Raise e =>
         trace st' = trace st ++ [CallLaunchRoscore asked smv dp]
         /\ r = Raise e
     | Ok launched =>
         trace st' = trace st ++ [CallLaunchRoscore asked smv dp;
                                  CallChangeRosMaster launched]
         /\ match change_ros_master c launched with
            | Ok _ => r = Ok launched
            | Raise e => r = Raise e
            end
     end.
Proof.
  intro asked. rewrite launch_of_plain, launch_run. fold asked. cbv zeta.
  destruct (launch_roscore c asked smv dp) as [launched|e].
  - split; [reflexivity|]. split; [now intros ->|].
    rewrite <- app_assoc. split; [reflexivity|].
    now destruct (change_ros_master c launched).
  - split; [reflexivity|]. split; [now intros ->|]. now split.
Qed.

(** C10. Given the same keyword arguments and the same world, the plain and
    the goal-conditioned constructor make the same launch and rebind calls in
    the same order, resolve the same port and assign the same node name. *)
Theorem templates_negotiate_alike (k : kwargs) (c : collab) :
  negotiation_calls (calls (MyRealTaskEnv.__init__ k) c)
  = negotiation_calls (calls (MyRealTaskGoalEnv.__init__ k) c)
  /\ calls (MyRealTaskEnv.negotiate k) c = calls (MyRealTaskGoalEnv.negotiate k) c
  /\ result (MyRealTaskEnv.negotiate k) c = result (MyRealTaskGoalEnv.negotiate k) c
  /\ node_name (object (MyRealTaskEnv.__init__ k) c)
     = node_name (object (MyRealTaskGoalEnv.__init__ k) c).
Proof.
  destruct (init_calls Plain k c) as (rp & Hp & _ & Hqp).
  destruct (init_calls Goal k c) as (rg & Hg & _ & Hqg).
  destruct (init_shape Plain k c) as (_ & _ & Hnp & _).
  destruct (init_shape Goal k c) as (_ & _ & Hng & _).
  simpl in *. repeat split.
  - rewrite Hp, Hg. unfold negotiation_calls in *.
    rewrite !filter_app, Hqp, Hqg. reflexivity.
  - congruence.
Qed.

(** C2 (as amended).  The node name a construction ends with is a function
    of the resolved port alone, so that two constructions resolving the same
    port carry the same name: [TaskEnv_] followed by the port when the
    resolved port is text - which is the spec's [resolveName] of an integer
    port when the text is that integer written out - and the literal
    [TaskEnv] when no port was resolved.  A resolved port that is not text
    cannot be appended: the constructor raises [TypeError] and assigns no
    name. *)
Theorem node_name_is_resolveName (t : template) (k : kwargs) (c : collab) :
  node_name (object (init_of t k) c)
  = assigned_name (result (negotiate_of t k) c)
  /\ (forall p : string,
        result (negotiate_of t k) c = Ok (PyStr p) ->
        node_name (object (init_of t k) c) = Some ("TaskEnv_" +:+ p))
  /\ (forall port : Z,
        result (negotiate_of t k) c = Ok (PyStr (pretty port)) ->
        node_name (object (init_of t k) c) = Some (spec_resolveName (Some port)))
  /\ (result (negotiate_of t k) c = Ok PyNone ->
      node_name (object (init_of t k) c) = Some (spec_resolveName None))
  /\ (forall v : pyval,
        result (negotiate_of t k) c = Ok v ->
        v <> PyNone -> (forall p : string, v <> PyStr p) ->
        node_name (object (init_of t k) c) = None
        /\ result (init_of t k) c = Raise TypeError)
  /\ (forall (t' : template) (k' : kwargs) (c' : collab),
        result (negotiate_of t' k') c' = result (negotiate_of t k) c ->
        node_name (object (init_of t' k') c') = node_name (object (init_of t k) c)).
Proof.
  assert (Hname : forall t k c,
             node_name (object (init_of t k) c)
             = assigned_name (result (negotiate_of t k) c)).
  { clear. intros t k c. rewrite negotiate_of_plain.
    destruct (init_shape t k c) as (_ & _ & H & _). exact H. }
  split; [apply Hname|]. split; [|split; [|split; [|split]]].
  - intros p Hp. rewrite Hname, Hp. reflexivity.
  - intros port Hp. rewrite Hname, Hp. reflexivity.
  - intros Hp. rewrite Hname, Hp. reflexivity.
  - intros v Hv Hnone Htext. rewrite Hname, Hv.
    destruct (init_shape t k c) as (_ & _ & _ & _ & Hfail).
    rewrite negotiate_of_plain in Hv. rewrite Hv in Hfail.
    destruct v as [| | | |p]; try (now split).
    exfalso. now apply (Htext p).
  - intros t' k' c' Hsame. rewrite !Hname. now f_equal.
Qed.

Lemma negotiate_registers_nothing (k : kwargs) (c : collab) :
  filter is_init_node (calls (MyRealTaskEnv.negotiate k) c) = [].
Proof.
  unfold calls, run, MyRealTaskEnv.negotiate.
  destruct (default_port k), (new_roscore k), (is_None (roscore_port k));
    simpl; rewrite ?bind_run, ?launch_run; simpl.
  all: try (destruct (launch_roscore c _ _ _); reflexivity).
  - unfold_monad; simpl.
    destruct (is_roscore_running c) as [v|e]; simpl; [|reflexivity].
    destruct (is_False v); simpl; [|reflexivity].
    rewrite launch_run; simpl. destruct (launch_roscore c _ _ _); reflexivity.
  - unfold_monad; simpl. destruct (change_ros_master c _) as [[]|e]; reflexivity.
Qed.

Lemma quiet_no_init_node (l : list event) :
  Forall quiet_call l -> filter is_init_node l = [].
Proof.
  induction 1 as [|e l (_ & _ & Hi) _ IH]; [reflexivity|].
  rewrite filter_cons_False; [exact IH|]. rewrite Hi. exact id.
Qed.

(** The registrations of a construction: one, under the assigned name and
    with [anonymous=True], exactly when a name could be formed. *)
Lemma init_registrations (t : template) (k : kwargs) (c : collab) :
  filter is_init_node (calls (init_of t k) c)
  = match node_name (object (init_of t k) c) with
    | Some n => [CallInitNode n true]
    | None => []
    end.
Proof.
  destruct (init_shape t k c) as (rest & -> & -> & Hrest & _).
  rewrite filter_app, negotiate_registers_nothing. simpl.
  destruct (assigned_name _) as [n|].
  - destruct Hrest as (more & -> & Hq).
    rewrite filter_cons_True by exact I.
    now rewrite quiet_no_init_node.
  - now subst rest.
Qed.

Lemma assigned_name_prefix (r : outcome pyval) (n : string) :
  assigned_name r = Some n -> String.prefix "TaskEnv" n = true /\ n <> "".
Proof.
  destruct r as [[| | | |p]|e]; simpl; intro H; try discriminate;
    injection H as <-; split; try reflexivity; discriminate.
Qed.

(** C9. For every combination of keyword arguments and both templates: a
    node name that was computed begins with [TaskEnv], so it is not empty;
    every node registration of the construction carries that name and
    [anonymous=True]; and when the negotiation resolved a text port or none,
    the name is computed and registered exactly once. *)
Theorem node_name_prefixed_and_anonymous (t : template) (k : kwargs) (c : collab) :
  (forall n : string,
     node_name (object (init_of t k) c) = Some n ->
     String.prefix "TaskEnv" n = true /\ n <> "")
  /\ (forall (n : string) (anonymous : bool),
        CallInitNode n anonymous ∈ calls (init_of t k) c ->
        anonymous = true /\ node_name (object (init_of t k) c) = Some n)
  /\ (forall resolved : pyval,
        result (negotiate_of t k) c = Ok resolved ->
        resolved = PyNone \/ (exists p, resolved = PyStr p) ->
        exists n : string,
          node_name (object (init_of t k) c) = Some n
          /\ filter is_init_node (calls (init_of t k) c) = [CallInitNode n true]).
Proof.
  pose proof (init_registrations t k c) as Hreg.
  destruct (init_shape t k c) as (_ & _ & Hname & _).
  rewrite <- (negotiate_of_plain t) in Hname.
  split; [|split].
  - intros n Hn. rewrite Hname in Hn. eapply assigned_name_prefix, Hn.
  - intros n a Hin.
    assert (Hin' : CallInitNode n a ∈ filter is_init_node (calls (init_of t k) c)).
    { apply list_elem_of_filter. split; [exact I | exact Hin]. }
    rewrite Hreg in Hin'.
    destruct (node_name (object (init_of t k) c)) as [m|].
    + apply list_elem_of_singleton in Hin'. injection Hin' as -> ->. now split.
    + now apply not_elem_of_nil in Hin'.
  - intros resolved Hres Hkind. rewrite Hreg, Hname, Hres.
    destruct Hkind as [-> | [p ->]]; simpl; eexists; split; reflexivity.
Qed.

(** ** Extension points *)







(** ** The observation space of the goal-conditioned template *)

(** The goal constructor declares its spaces right after the node is
    registered, so they are set exactly when the registration returned. *)
Lemma goal_spaces_declared (k : kwargs) (c : collab) :
  observation_space (object (MyRealTaskGoalEnv.__init__ k) c)
  = match node_name (object (MyRealTaskGoalEnv.__init__ k) c) with
    | Some n =>
        match init_node c n true with
        | Ok _ => Some (MyRealTaskGoalEnv.observation_dict
                          MyRealTaskGoalEnv.goal_box MyRealTaskGoalEnv.goal_box)
        | Raise _ => None
        end
    | None => None
    end
  /\ (result (MyRealTaskGoalEnv.__init__ k) c = Ok tt ->
      exists n, node_name (object (MyRealTaskGoalEnv.__init__ k) c) = Some n
                /\ init_node c n true = Ok tt).
Proof.
  unfold object, result, run.
  destruct (negotiate_frame k c init_state) as [more Hst]. simpl in Hst.
  unfold MyRealTaskGoalEnv.__init__.
  rewrite goal_negotiate_same, bind_run.
  destruct (MyRealTaskEnv.negotiate k c init_state) as [[p|e] st1];
    simpl in Hst; subst st1; simpl; [|now split].
  unfold MyRealTaskGoalEnv.assign_node_name, MyRealTaskGoalEnv.declare_spaces.
  unfold_monad.
  destruct p; simpl; try now split.
  all: destruct (init_node c _ _) as [[]|e1] eqn:Hi; simpl; rewrite ?Hi;
    try now split.
  all: destruct (robot_goal_env_init c _ _ _ _) as [[]|e2]; simpl; rewrite Hi;
    (split; [reflexivity|]); try discriminate; intros _; eexists; now split.
Qed.

Lemma observation_dict_keys (achieved desired : space) :
  match MyRealTaskGoalEnv.observation_dict achieved desired with
  | SDict entries =>
      dom entries = ({["observation"; "achieved_goal"; "desired_goal"]} : gset string)
      /\ size entries = 3
  | SBox _ => False
  end.
Proof.
  unfold MyRealTaskGoalEnv.observation_dict. split.
  - rewrite !dom_insert_L, dom_empty_L. set_solver.
  - rewrite !map_size_insert_None, map_size_empty; [reflexivity|..];
      rewrite ?lookup_insert_ne by discriminate; apply lookup_empty.
Qed.

(** C4. Whatever keyword arguments it was given, a goal-conditioned
    environment whose construction has completed holds as observation space a
    dictionary space whose keys are exactly [observation], [achieved_goal]
    and [desired_goal], three in all.  The spaces are assigned by the
    constructor itself, not by an extension point. *)
Theorem goal_observation_space_keys (k : kwargs) (c : collab)
    (Hconstructed : result (MyRealTaskGoalEnv.__init__ k) c = Ok tt) :
  exists entries : gmap string space,
    observation_space (object (MyRealTaskGoalEnv.__init__ k) c)
    = Some (SDict entries)
    /\ dom entries = ({["observation"; "achieved_goal"; "desired_goal"]} : gset string)
    /\ size entries = 3
    /\ (forall key : string,
          is_Some (entries !! key)
          <-> key = "observation" \/ key = "achieved_goal" \/ key = "desired_goal").
Proof.
  destruct (goal_spaces_declared k c) as [Hspace Hdone].
  destruct (Hdone Hconstructed) as (n & Hn & Hreg).
  rewrite Hn, Hreg in Hspace.
  pose proof (observation_dict_keys MyRealTaskGoalEnv.goal_box
                MyRealTaskGoalEnv.goal_box) as Hkeys.
  destruct (MyRealTaskGoalEnv.observation_dict _ _) as [|entries]; [easy|].
  destruct Hkeys as [Hdom Hsize].
  exists entries. split; [exact Hspace|]. split; [exact Hdom|].
  split; [exact Hsize|].
  intros key. rewrite <- elem_of_dom, Hdom, !elem_of_union, !elem_of_singleton.
  tauto.
Qed.

(** ** The branches of the negotiation, one at a time *)

Lemma negotiate_default_port (k : kwargs) :
  default_port k = true ->
  MyRealTaskEnv.negotiate k = MyRealTaskEnv._launch_roscore PyNone false true.
Proof. unfold MyRealTaskEnv.negotiate. now intros ->. Qed.

Lemma negotiate_attach (k : kwargs) (c : collab) (st : state) :
  default_port k = false -> new_roscore k = false ->
  is_None (roscore_port k) = false ->
  MyRealTaskEnv.negotiate k c st
  = (match change_ros_master c (roscore_port k) with
     | Ok _ => Ok (roscore_port k)
     | Raise e => Raise e
     end,
     State (self st) (trace st ++ [CallChangeRosMaster (roscore_port k)])).
Proof.
  unfold MyRealTaskEnv.negotiate. intros -> -> ->. unfold_monad. simpl.
  now destruct (change_ros_master c (roscore_port k)) as [[]|e].
Qed.

Lemma negotiate_autodetect (k : kwargs) (c : collab) (st : state) :
  default_port k = false -> new_roscore k = false -> roscore_port k = PyNone ->
  MyRealTaskEnv.negotiate k c st
  = let probed := State (self st) (trace st ++ [CallIsRoscoreRunning]) in
    match is_roscore_running c with
    | Raise e => (Raise e, probed)
    | Ok v =>
        if is_False v then
          MyRealTaskEnv._launch_roscore PyNone false false c
            (State (self st)
               (trace probed
                ++ [Print "roscore is not running! Launching a new roscore!"]))
        else (Ok PyNone, probed)
    end.
Proof.
  unfold MyRealTaskEnv.negotiate. intros -> -> ->. unfold_monad. simpl.
  destruct (is_roscore_running c) as [v|e]; [|reflexivity].
  now destruct (is_False v).
Qed.

(** The node name and the launch count of a construction, read off the
    negotiation. *)
Lemma init_summary (t : template) (k : kwargs) (c : collab) :
  node_name (object (init_of t k) c)
  = assigned_name (result (MyRealTaskEnv.negotiate k) c)
  /\ launches (calls (init_of t k) c)
     = launches (calls (MyRealTaskEnv.negotiate k) c)
  /\ negotiation_calls (calls (init_of t k) c)
     = negotiation_calls (calls (MyRealTaskEnv.negotiate k) c)
  /\ head (calls (init_of t k) c) = head (calls (MyRealTaskEnv.negotiate k) c).
Proof.
  destruct (init_shape t k c) as (_ & _ & Hname & _).
  destruct (init_calls t k c) as (rest & Hcalls & Hl & Hn).
  split; [exact Hname|]. rewrite Hcalls. split; [|split].
  - rewrite launches_app, Hl. lia.
  - unfold negotiation_calls in *. rewrite filter_app, Hn. apply app_nil_r.
  - pose proof (negotiate_head k c) as Hhead.
    now destruct (calls (MyRealTaskEnv.negotiate k) c).
Qed.

(** C5 (as amended). With [default_port=True] the launcher is asked for the
    integer port 11311; when it answers with that port as the text "11311"
    and the rebind returns, the resolved port is "11311" and the node name is
    [TaskEnv_11311]. *)
Theorem default_port_resolves_11311 (t : template) (k : kwargs) (c : collab)
    (Hflag : default_port k = true)
    (Hlaunch : launch_roscore c (PyInt 11311) false true = Ok (PyStr "11311"))
    (Hrebind : change_ros_master c (PyStr "11311") = Ok tt) :
  head (calls (init_of t k) c) = Some (CallLaunchRoscore (PyInt 11311) false true)
  /\ result (negotiate_of t k) c = Ok (PyStr "11311")
  /\ node_name (object (init_of t k) c) = Some "TaskEnv_11311".
Proof.
  destruct (init_summary t k c) as (Hname & _ & _ & Hhead).
  rewrite Hname, Hhead, negotiate_of_plain.
  unfold result, calls, run.
  rewrite (negotiate_default_port k Hflag), launch_run. simpl.
  rewrite Hlaunch, Hrebind. now repeat split.
Qed.

(** C6. With [roscore_port="11312"], [new_roscore=False] and
    [default_port=False] the negotiation makes one call, the rebind to
    "11312": nothing is launched, nothing is probed or printed, and [self] is
    left as it was; when the rebind returns, "11312" is the resolved port and
    the node name is [TaskEnv_11312]. *)
Theorem attach_only_rebinds
    (t : template) (k : kwargs) (c : collab) (st : state)
    (Hdefault : default_port k = false)
    (Hnew : new_roscore k = false)
    (Hport : roscore_port k = PyStr "11312") :
  snd (negotiate_of t k c st)
  = State (self st) (trace st ++ [CallChangeRosMaster (PyStr "11312")])
  /\ launches (calls (init_of t k) c) = 0
  /\ negotiation_calls (calls (init_of t k) c) = [CallChangeRosMaster (PyStr "11312")]
  /\ match change_ros_master c (PyStr "11312") with
     | Ok _ =>
         result (negotiate_of t k) c = Ok (PyStr "11312")
         /\ node_name (object (init_of t k) c) = Some "TaskEnv_11312"
     | Raise e =>
         result (init_of t k) c = Raise e
         /\ node_name (object (init_of t k) c) = None
     end.
Proof.
  assert (Hgiven : is_None (roscore_port k) = false) by now rewrite Hport.
  pose proof (fun st => negotiate_attach k c st Hdefault Hnew Hgiven) as Hrun.
  rewrite Hport in Hrun.
  destruct (init_summary t k c) as (Hname & Hl & Hn & _).
  destruct (init_shape t k c) as (_ & _ & _ & _ & Hfail).
  rewrite Hname, Hl, Hn, negotiate_of_plain.
  unfold result, calls, run in *. rewrite !Hrun in *. simpl.
  split; [reflexivity|]. split; [reflexivity|]. split; [reflexivity|].
  destruct (change_ros_master c (PyStr "11312")) as [[]|e]; simpl in *;
    now split.
Qed.

(** C7 (as amended). With [default_port] false or left out, [new_roscore]
    passed as [False] and no [roscore_port], the constructor probes for a
    running roscore.  When the probe answers [False] it prints the notice and
    then calls the launcher once, for port 11311; when the probe answers
    anything else, nothing is launched or rebound, no port is resolved and
    the node name is [TaskEnv]. *)
Theorem autodetect_probes_then_launches (t : template) (k : kwargs) (c : collab)
    (Hdefault : default_port k = false)
    (Hnew : new_roscore k = false)
    (Hport : roscore_port k = PyNone) :
  (is_roscore_running c = Ok (PyBool false) ->
     (exists more,
        calls (negotiate_of t k) c
        = [CallIsRoscoreRunning;
           Print "roscore is not running! Launching a new roscore!";
           CallLaunchRoscore (PyInt 11311) false false] ++ more)
     /\ launches (calls (init_of t k) c) = 1)
  /\ (forall answer : pyval,
        is_roscore_running c = Ok answer -> is_False answer = false ->
        calls (negotiate_of t k) c = [CallIsRoscoreRunning]
        /\ result (negotiate_of t k) c = Ok PyNone
        /\ negotiation_calls (calls (init_of t k) c) = []
        /\ node_name (object (init_of t k) c) = Some "TaskEnv").
Proof.
  pose proof (negotiate_autodetect k c init_state Hdefault Hnew Hport) as Hrun.
  destruct (init_summary t k c) as (Hname & Hl & Hn & _).
  rewrite Hname, Hl, Hn, negotiate_of_plain.
  unfold result, calls, run. rewrite Hrun. clear Hrun. cbv zeta. split.
  - intros ->. simpl. rewrite launch_run. simpl.
    destruct (launch_roscore c _ _ _) as [v|e]; simpl;
      (split; [eexists; reflexivity | reflexivity]).
  - intros answer -> ->. simpl. now repeat split.
Qed.

(** ** Counterexamples *)

(** C5 as it was stated: a launcher that hands back the very port it was
    asked to bind answers with the integer 11311, and the name concatenation
    then raises [TypeError]; no name is assigned although no collaborator
    failed. *)
Lemma default_port_echo_has_no_name :
  ~ (forall (t : template) (k : kwargs) (c : collab),
       default_port k = true ->
       (forall port smv dp, launch_roscore c port smv dp = Ok port) ->
       (forall port, change_ros_master c port = Ok tt) ->
       (forall n a, init_node c n a = Ok tt) ->
       node_name (object (init_of t k) c) = Some "TaskEnv_11311").
Proof.
  intros Hclaim.
  specialize (Hclaim Plain default_port_kwargs (echo_world false) eq_refl
                (fun _ _ _ => eq_refl) (fun _ => eq_refl) (fun _ _ => eq_refl)).
  vm_compute in Hclaim. discriminate Hclaim.
Qed.

Lemma default_port_echo_raises :
  result (MyRealTaskEnv.__init__ default_port_kwargs) (echo_world false)
  = Raise TypeError
  /\ calls (MyRealTaskEnv.__init__ default_port_kwargs) (echo_world false)
     = [CallLaunchRoscore (PyInt 11311) false true;
        CallChangeRosMaster (PyInt 11311)].
Proof. split; vm_compute; reflexivity. Qed.

(** C2 as it was stated: with [default_port=True] and a launcher that
    hands back the integer it was given, the port 11311 is resolved, yet the
    node name is not the [resolveName] of that port - none is assigned. *)
Lemma integer_port_leaves_no_name :
  ~ (forall (t : template) (k : kwargs) (c : collab) (port : Z),
       result (negotiate_of t k) c = Ok (PyInt port) ->
       node_name (object (init_of t k) c) = Some (spec_resolveName (Some port))).
Proof.
  intros Hclaim.
  specialize (Hclaim Plain default_port_kwargs (echo_world false) 11311%Z eq_refl).
  vm_compute in Hclaim. discriminate Hclaim.
Qed.

(** C7 as it was stated: with every keyword left out, [new_roscore] takes
    its default [True]; a roscore is launched although one is reachable, and
    the node name is not [TaskEnv]. *)
Lemma unset_new_roscore_still_launches :
  ~ (forall (t : template) (k : kwargs) (c : collab),
       false_or_unset (kw_default_port k) ->
       false_or_unset (kw_new_roscore k) ->
       none_or_unset (kw_roscore_port k) ->
       is_roscore_running c = Ok (PyBool true) ->
       launches (calls (init_of t k) c) = 0
       /\ node_name (object (init_of t k) c) = Some "TaskEnv").
Proof.
  intros Hclaim.
  destruct (Hclaim Plain no_kwargs (text_world true)
              (or_introl eq_refl) (or_introl eq_refl) (or_introl eq_refl) eq_refl)
    as [Hlaunch _].
  vm_compute in Hlaunch. discriminate Hlaunch.
Qed.

Lemma unset_new_roscore_run :
  calls (MyRealTaskEnv.__init__ no_kwargs) (text_world true)
  = [CallLaunchRoscore (PyInt 11311) false false;
     CallChangeRosMaster (PyStr "11311");
     CallInitNode "TaskEnv_11311" true;
     LogInfo "Starting Custom Task Env";
     CallRobotEnvInit (PyStr "11311") PyNone false (PyFloat 0);
     LogInfo "Finished Init of Custom Task Env"].
Proof. vm_compute. reflexivity. Qed.

(** ** The theorems at work on the sample worlds *)


Lemma goal_observation_space_keys_witness :
  exists entries : gmap string space,
    observation_space
      (object (MyRealTaskGoalEnv.__init__ no_kwargs) (text_world true))
    = Some (SDict entries)
    /\ dom entries = ({["observation"; "achieved_goal"; "desired_goal"]} : gset string)
    /\ size entries = 3
    /\ (forall key : string,
          is_Some (entries !! key)
          <-> key = "observation" \/ key = "achieved_goal" \/ key = "desired_goal").
Proof.
  apply (goal_observation_space_keys no_kwargs (text_world true)).
  vm_compute. reflexivity.
Defined.

Lemma default_port_resolves_11311_witness :
  head (calls (MyRealTaskGoalEnv.__init__ default_port_kwargs) (text_world false))
  = Some (CallLaunchRoscore (PyInt 11311) false true)
  /\ result (MyRealTaskGoalEnv.negotiate default_port_kwargs) (text_world false)
     = Ok (PyStr "11311")
  /\ node_name (object (MyRealTaskGoalEnv.__init__ default_port_kwargs)
                  (text_world false))
     = Some "TaskEnv_11311".
Proof.
  apply (default_port_resolves_11311 Goal default_port_kwargs (text_world false)).
  - reflexivity.
  - vm_compute. reflexivity.
  - reflexivity.
Defined.

Lemma attach_only_rebinds_witness :
  snd (MyRealTaskEnv.negotiate attach_kwargs (text_world false) init_state)
  = State new_obj [CallChangeRosMaster (PyStr "11312")]
  /\ launches (calls (MyRealTaskEnv.__init__ attach_kwargs) (text_world false)) = 0
  /\ negotiation_calls
       (calls (MyRealTaskEnv.__init__ attach_kwargs) (text_world false))
     = [CallChangeRosMaster (PyStr "11312")]
  /\ result (MyRealTaskEnv.negotiate attach_kwargs) (text_world false)
     = Ok (PyStr "11312")
  /\ node_name (object (MyRealTaskEnv.__init__ attach_kwargs) (text_world false))
     = Some "TaskEnv_11312".
Proof.
  destruct (attach_only_rebinds Plain attach_kwargs (text_world false) init_state
              eq_refl eq_refl eq_refl) as (Hstate & Hlaunch & Hcalls & Hname).
  simpl in Hname. destruct Hname as [Hresolved Hname].
  exact (conj Hstate (conj Hlaunch (conj Hcalls (conj Hresolved Hname)))).
Defined.

Lemma autodetect_probes_then_launches_witness :
  ((exists more,
      calls (MyRealTaskEnv.negotiate autodetect_kwargs) (text_world false)
      = [CallIsRoscoreRunning;
         Print "roscore is not running! Launching a new roscore!";
         CallLaunchRoscore (PyInt 11311) false false] ++ more)
   /\ launches (calls (MyRealTaskEnv.__init__ autodetect_kwargs) (text_world false))
      = 1)
  /\ node_name (object (MyRealTaskEnv.__init__ autodetect_kwargs) (text_world true))
     = Some "TaskEnv".
Proof.
  split.
  - apply (autodetect_probes_then_launches Plain autodetect_kwargs
             (text_world false) eq_refl eq_refl eq_refl).
    reflexivity.
  - apply (autodetect_probes_then_launches Plain autodetect_kwargs
             (text_world true) eq_refl eq_refl eq_refl) with (answer := PyBool true);
      reflexivity.
Defined.

Lemma node_name_is_resolveName_witness :
  node_name (object (MyRealTaskEnv.__init__ attach_kwargs) (text_world true))
  = Some "TaskEnv_11312"
  /\ node_name (object (MyRealTaskGoalEnv.__init__ default_port_kwargs)
                  (text_world true))
     = Some (spec_resolveName (Some 11311%Z))
  /\ node_name (object (MyRealTaskGoalEnv.__init__ autodetect_kwargs)
                  (text_world true))
     = Some "TaskEnv"
  /\ (node_name (object (MyRealTaskEnv.__init__ int_port_kwargs) (text_world true))
      = None
      /\ result (MyRealTaskEnv.__init__ int_port_kwargs) (text_world true)
         = Raise TypeError)
  /\ node_name (object (MyRealTaskGoalEnv.__init__ attach_kwargs) (echo_world false))
     = node_name (object (MyRealTaskEnv.__init__ attach_kwargs) (text_world true)).
Proof.
  split; [|split; [|split; [|split]]].
  - apply (node_name_is_resolveName Plain attach_kwargs (text_world true)).
    reflexivity.
  - apply (node_name_is_resolveName Goal default_port_kwargs (text_world true)).
    vm_compute. reflexivity.
  - apply (node_name_is_resolveName Goal autodetect_kwargs (text_world true)).
    reflexivity.
  - apply (node_name_is_resolveName Plain int_port_kwargs (text_world true))
      with (v := PyInt 11312).
    + reflexivity.
    + discriminate.
    + intros p. discriminate.
  - apply (node_name_is_resolveName Plain attach_kwargs (text_world true)).
    reflexivity.
Defined.

Lemma node_name_prefixed_and_anonymous_witness :
  (String.prefix "TaskEnv" "TaskEnv_11311" = true /\ "TaskEnv_11311" <> "")
  /\ exists n : string,
       node_name (object (MyRealTaskEnv.__init__ no_kwargs) (text_world true))
       = Some n
       /\ filter is_init_node
            (calls (MyRealTaskEnv.__init__ no_kwargs) (text_world true))
          = [CallInitNode n true].
Proof.
  split.
  - apply (node_name_prefixed_and_anonymous Plain no_kwargs (text_world true)).
    vm_compute. reflexivity.
  - apply (node_name_prefixed_and_anonymous Plain no_kwargs (text_world true))
      with (resolved := PyStr "11311").
    + vm_compute. reflexivity.
    + right. exists "11311". reflexivity.
Defined.

(** * Further properties of the constructors *)

(** ** A construction, stage by stage *)

(** After the negotiation a constructor either stops (the negotiation raised,
    or no name can be formed), or registers the node and then stops if the
    registration raised, or goes on to the base class. *)
Lemma init_cases (t : template) (k : kwargs) (c : collab) :
  let neg := run (MyRealTaskEnv.negotiate k) c in
  match fst neg with
  | Raise e => run (init_of t k) c = (Raise e, snd neg)
  | Ok p =>
      match assigned_name (Ok p) with
      | None => run (init_of t k) c = (Raise TypeError, snd neg)
      | Some n =>
          node_name (object (init_of t k) c) = Some n
          /\ match init_node c n true with
             | Raise e =>
                 result (init_of t k) c = Raise e
                 /\ calls (init_of t k) c = trace (snd neg) ++ [CallInitNode n true]
                 /\ observation_space (object (init_of t k) c) = None
             | Ok _ =>
                 let upto :=
                   trace (snd neg)
                   ++ [CallInitNode n true; LogInfo "Starting Custom Task Env";
                       base_call t p (seed k) (reset_env_prompt k)
                         (action_cycle_time k)] in
                 match base_answer t c p (seed k) (reset_env_prompt k)
                         (action_cycle_time k) with
                 | Raise e =>
                     result (init_of t k) c = Raise e
                     /\ calls (init_of t k) c = upto
                 | Ok _ =>
                     result (init_of t k) c = Ok tt
                     /\ calls (init_of t k) c
                        = upto ++ [LogInfo "Finished Init of Custom Task Env"]
                 end
             end
      end
  end.
Proof.
  unfold calls, object, result, run. cbv zeta.
  destruct (negotiate_frame k c init_state) as [more Hst]. simpl in Hst.
  destruct t; simpl;
    unfold MyRealTaskEnv.__init__, MyRealTaskGoalEnv.__init__;
    rewrite ?goal_negotiate_same, bind_run;
    destruct (MyRealTaskEnv.negotiate k c init_state) as [[p|e] st1];
    simpl in Hst; subst st1; simpl; try reflexivity.
  all: unfold MyRealTaskEnv.assign_node_name, MyRealTaskGoalEnv.assign_node_name,
         MyRealTaskGoalEnv.declare_spaces; unfold_monad.
  all: destruct p; simpl; try reflexivity.
  all: destruct (init_node c _ _) as [[]|e1]; simpl;
    try (split; [reflexivity|]; repeat split; reflexivity).
  all: first [ destruct (robot_env_init c _ _ _ _) as [[]|e2]
             | destruct (robot_goal_env_init c _ _ _ _) as [[]|e2] ];
    simpl; rewrite <- ?app_assoc; simpl; repeat split; reflexivity.
Qed.

Lemma negotiate_new_roscore (k : kwargs) :
  default_port k = false -> new_roscore k = true ->
  MyRealTaskEnv.negotiate k
  = MyRealTaskEnv._launch_roscore (roscore_port k) false false.
Proof. unfold MyRealTaskEnv.negotiate. now intros -> ->. Qed.

Lemma launch_text (c : collab) (st : state) (port : pyval) (smv dp : bool) :
  well_behaved c ->
  exists q, fst (MyRealTaskEnv._launch_roscore port smv dp c st) = Ok (PyStr q).
Proof.
  intros (Hlaunch & Hrebind & _). rewrite launch_run. cbv zeta.
  destruct (Hlaunch (if is_None port then PyInt 11311 else port) smv dp)
    as [q ->].
  rewrite Hrebind. now exists q.
Qed.

Lemma negotiate_names (k : kwargs) (c : collab) :
  well_behaved c ->
  roscore_port k = PyNone \/ (exists p, roscore_port k = PyStr p) ->
  exists n, assigned_name (result (MyRealTaskEnv.negotiate k) c) = Some n.
Proof.
  intros Hworld Hport. unfold result, run.
  destruct (default_port k) eqn:Hd; [|destruct (new_roscore k) eqn:Hn].
  - rewrite (negotiate_default_port k Hd).
    destruct (launch_text c init_state PyNone false true Hworld) as [q ->].
    now eexists.
  - rewrite (negotiate_new_roscore k Hd Hn).
    destruct (launch_text c init_state (roscore_port k) false false Hworld)
      as [q ->].
    now eexists.
  - destruct Hport as [Hp | [p Hp]].
    + rewrite (negotiate_autodetect k c init_state Hd Hn Hp). cbv zeta.
      pose proof Hworld as (_ & _ & [v Hv] & _). rewrite Hv.
      destruct (is_False v); [|now eexists].
      edestruct (launch_text c) as [q ->]; [exact Hworld|now eexists].
    + rewrite (negotiate_attach k c init_state Hd Hn) by now rewrite Hp.
      destruct Hworld as (_ & -> & _). rewrite Hp. now eexists.
Qed.

(** X1. In a world where every call returns and the launcher answers with
    text, a construction whose [roscore_port] is [None] or text returns
    normally, for every choice of the other keyword arguments. *)
Theorem construction_completes (t : template) (k : kwargs) (c : collab)
    (Hworld : well_behaved c)
    (Hport : roscore_port k = PyNone \/ (exists p, roscore_port k = PyStr p)) :
  result (init_of t k) c = Ok tt.
Proof.
  destruct (negotiate_names k c Hworld Hport) as [n Hn].
  pose proof (init_cases t k c) as Hcases. cbv zeta in Hcases.
  unfold result in Hn.
  destruct (fst (run (MyRealTaskEnv.negotiate k) c)) as [p|e]; [|discriminate].
  rewrite Hn in Hcases. destruct Hcases as [_ Hcases].
  destruct Hworld as (_ & _ & _ & Hreg & Hplain & Hgoal).
  rewrite Hreg in Hcases.
  assert (Hbase : base_answer t c p (seed k) (reset_env_prompt k)
                    (action_cycle_time k) = Ok tt)
    by (destruct t; [apply Hplain | apply Hgoal]).
  rewrite Hbase in Hcases. apply Hcases.
Qed.

(** X2. A construction that returns has called, after the negotiation and in
    this order: the node registration under the assigned name with
    [anonymous=True], the start log line, the base-class constructor with the
    resolved port and the caller's [seed], [reset_env_prompt] and
    [action_cycle_time], and the finish log line - and nothing else. *)
Theorem completed_construction_calls (t : template) (k : kwargs) (c : collab)
    (Hdone : result (init_of t k) c = Ok tt) :
  exists (p : pyval) (n : string),
    result (negotiate_of t k) c = Ok p
    /\ node_name (object (init_of t k) c) = Some n
    /\ calls (init_of t k) c
       = calls (negotiate_of t k) c
         ++ [CallInitNode n true;
             LogInfo "Starting Custom Task Env";
             base_call t p (seed k) (reset_env_prompt k) (action_cycle_time k);
             LogInfo "Finished Init of Custom Task Env"].
Proof.
  rewrite negotiate_of_plain.
  pose proof (init_cases t k c) as Hcases. cbv zeta in Hcases.
  unfold result, calls in *.
  destruct (fst (run (MyRealTaskEnv.negotiate k) c)) as [p|e].
  - destruct (assigned_name (Ok p)) as [n|].
    + destruct Hcases as [Hname Hcases]. exists p, n.
      destruct (init_node c n true) as [[]|e1].
      * destruct (base_answer t c p _ _ _) as [[]|e2].
        -- destruct Hcases as [_ ->]. rewrite <- app_assoc. now repeat split.
        -- destruct Hcases as [Hr _]. congruence.
      * destruct Hcases as [Hr _]. congruence.
    + rewrite Hcases in Hdone. discriminate.
  - rewrite Hcases in Hdone. discriminate.
Qed.

(** X3. When the node registration raises, the constructor raises the same
    exception right after that call: the base-class constructor is never
    called and no observation space has been declared, although the roscore
    calls of the negotiation have been made and the name is assigned. *)
Theorem registration_failure_aborts
    (t : template) (k : kwargs) (c : collab) (n : string) (e : exn)
    (Hname : node_name (object (init_of t k) c) = Some n)
    (Hreg : init_node c n true = Raise e) :
  result (init_of t k) c = Raise e
  /\ calls (init_of t k) c = calls (negotiate_of t k) c ++ [CallInitNode n true]
  /\ observation_space (object (init_of t k) c) = None.
Proof.
  rewrite negotiate_of_plain.
  pose proof (init_cases t k c) as Hcases. cbv zeta in Hcases.
  unfold result, calls, object in *.
  destruct (fst (run (MyRealTaskEnv.negotiate k) c)) as [p|e0].
  - destruct (assigned_name (Ok p)) as [m|].
    + destruct Hcases as [Hm Hcases].
      assert (m = n) as -> by congruence.
      rewrite Hreg in Hcases. exact Hcases.
    + pose proof (negotiate_self k c) as Hself. unfold object in Hself.
      rewrite Hcases in Hname. simpl in Hname. rewrite Hself in Hname.
      discriminate.
  - pose proof (negotiate_self k c) as Hself. unfold object in Hself.
    rewrite Hcases in Hname. simpl in Hname. rewrite Hself in Hname.
    discriminate.
Qed.

(** X4. When the negotiation resolves a value that is neither [None] nor
    text (an integer port, say), the constructor raises [TypeError] at the
    name concatenation: the calls of the negotiation - a launch, a rebind -
    have already been made, but no attribute is assigned, no node is
    registered and the base class is not called. *)
Theorem non_text_port_raises_late
    (t : template) (k : kwargs) (c : collab) (v : pyval)
    (Hresolved : result (negotiate_of t k) c = Ok v)
    (Hnot_none : v <> PyNone)
    (Hnot_text : forall p : string, v <> PyStr p) :
  result (init_of t k) c = Raise TypeError
  /\ calls (init_of t k) c = calls (negotiate_of t k) c
  /\ object (init_of t k) c = new_obj.
Proof.
  rewrite negotiate_of_plain in *.
  pose proof (init_cases t k c) as Hcases. cbv zeta in Hcases.
  pose proof (negotiate_self k c) as Hself.
  unfold result, calls, object in *. rewrite Hresolved in Hcases.
  destruct v as [| | | |p]; simpl in Hcases;
    try (rewrite Hcases; simpl; now repeat split).
  - now destruct Hnot_none.
  - now destruct (Hnot_text p).
Qed.

(** X5. When a call of the negotiation raises, the constructor raises the
    same exception without doing anything further: no attribute is assigned,
    no node is registered and the base class is not called. *)
Theorem negotiation_failure_aborts
    (t : template) (k : kwargs) (c : collab) (e : exn)
    (Hfailed : result (negotiate_of t k) c = Raise e) :
  result (init_of t k) c = Raise e
  /\ calls (init_of t k) c = calls (negotiate_of t k) c
  /\ object (init_of t k) c = new_obj.
Proof.
  rewrite negotiate_of_plain in *.
  pose proof (init_cases t k c) as Hcases. cbv zeta in Hcases.
  pose proof (negotiate_self k c) as Hself.
  unfold result, calls, object in *. rewrite Hfailed in Hcases.
  rewrite Hcases. simpl. now repeat split.
Qed.

(** ** What the negotiation calls, and when *)

Ltac negotiate_branches k c :=
  unfold calls, result, run, MyRealTaskEnv.negotiate;
  destruct (default_port k), (new_roscore k), (is_None (roscore_port k)) eqn:?;
  simpl; rewrite ?bind_run, ?launch_run; simpl.

Lemma negotiate_early (k : kwargs) (c : collab) :
  Forall early_call (calls (MyRealTaskEnv.negotiate k) c).
Proof.
  negotiate_branches k c.
  all: try (destruct (launch_roscore c _ _ _); repeat constructor).
  - unfold_monad; simpl.
    destruct (is_roscore_running c) as [v|e]; simpl; [|repeat constructor].
    destruct (is_False v); simpl; [|repeat constructor].
    rewrite launch_run; simpl.
    destruct (launch_roscore c _ _ _); repeat constructor.
  - unfold_monad; simpl.
    destruct (change_ros_master c _) as [[]|e]; repeat constructor.
Qed.

Lemma init_late (t : template) (k : kwargs) (c : collab) :
  exists rest,
    calls (init_of t k) c = calls (MyRealTaskEnv.negotiate k) c ++ rest
    /\ Forall late_call rest.
Proof.
  pose proof (init_cases t k c) as Hcases. cbv zeta in Hcases.
  unfold calls, result in *.
  destruct (fst (run (MyRealTaskEnv.negotiate k) c)) as [p|e].
  - destruct (assigned_name (Ok p)) as [n|].
    + destruct Hcases as [_ Hcases].
      destruct (init_node c n true) as [[]|e1].
      * destruct (base_answer t c p _ _ _) as [[]|e2];
          destruct Hcases as [_ ->]; rewrite <- ?app_assoc;
          eexists; (split; [reflexivity|]); destruct t; repeat constructor.
      * destruct Hcases as (_ & -> & _).
        eexists; (split; [reflexivity|]); repeat constructor.
    + rewrite Hcases. exists []. now rewrite app_nil_r.
  - rewrite Hcases. exists []. now rewrite app_nil_r.
Qed.

Lemma late_not_early (l : list event) (f : event -> bool) :
  (forall e, late_call e -> f e = false) ->
  Forall late_call l -> filter f l = [].
Proof.
  intros Hf. induction 1 as [|e l He _ IH]; [reflexivity|].
  rewrite filter_cons_False; [exact IH|]. rewrite (Hf e He). exact id.
Qed.

(** X6. The roscore calls of a construction (launch, rebind, probe, notice)
    all come before its node registration, log lines and base-class call. *)
Theorem roscore_calls_come_first (t : template) (k : kwargs) (c : collab) :
  exists early late : list event,
    calls (init_of t k) c = early ++ late
    /\ early = calls (negotiate_of t k) c
    /\ Forall early_call early
    /\ Forall late_call late.
Proof.
  destruct (init_late t k c) as (rest & Hcalls & Hlate).
  exists (calls (MyRealTaskEnv.negotiate k) c), rest.
  rewrite negotiate_of_plain.
  split; [exact Hcalls|]. split; [reflexivity|].
  split; [apply negotiate_early | exact Hlate].
Qed.

Lemma negotiate_rebinds (k : kwargs) (c : collab) :
  rebinds (calls (MyRealTaskEnv.negotiate k) c) <= 1.
Proof.
  unfold rebinds. negotiate_branches k c.
  all: try (destruct (launch_roscore c _ _ _); simpl; lia).
  - unfold_monad; simpl.
    destruct (is_roscore_running c) as [v|e]; simpl; [|lia].
    destruct (is_False v); simpl; [|lia].
    rewrite launch_run; simpl. destruct (launch_roscore c _ _ _); simpl; lia.
  - unfold_monad; simpl. destruct (change_ros_master c _) as [[]|e]; simpl; lia.
Qed.

Lemma negotiate_last (k : kwargs) (c : collab) (p : pyval) :
  result (MyRealTaskEnv.negotiate k) c = Ok p ->
  (calls (MyRealTaskEnv.negotiate k) c = [CallIsRoscoreRunning] /\ p = PyNone)
  \/ last (calls (MyRealTaskEnv.negotiate k) c) = Some (CallChangeRosMaster p).
Proof.
  negotiate_branches k c.
  all: try (destruct (launch_roscore c _ _ _) as [v|e]; simpl;
            [destruct (change_ros_master c v) as [[]|e]|];
            intros [= <-]; now right).
  - unfold_monad; simpl.
    destruct (is_roscore_running c) as [v|e]; simpl; [|discriminate].
    destruct (is_False v); simpl.
    + rewrite launch_run; simpl.
      destruct (launch_roscore c _ _ _) as [w|e]; simpl;
        [destruct (change_ros_master c w) as [[]|e]|];
        intros [= <-]; now right.
    + intros [= <-]. now left.
  - unfold_monad; simpl.
    destruct (change_ros_master c _) as [[]|e]; intros [= <-]. now right.
Qed.

(** X7. A construction rebinds the client at most once; and whenever the
    negotiation returns a port, either it only probed and resolved [None],
    or its last call was the rebind to exactly the port it returns. *)
Theorem rebound_to_resolved_port (t : template) (k : kwargs) (c : collab) :
  rebinds (calls (init_of t k) c) <= 1
  /\ (forall p : pyval,
        result (negotiate_of t k) c = Ok p ->
        (calls (negotiate_of t k) c = [CallIsRoscoreRunning] /\ p = PyNone)
        \/ last (calls (negotiate_of t k) c) = Some (CallChangeRosMaster p)).
Proof.
  rewrite negotiate_of_plain. split.
  - destruct (init_late t k c) as (rest & -> & Hlate).
    unfold rebinds. rewrite filter_app, length_app.
    rewrite (late_not_early rest is_rebind); [|now intros []|exact Hlate].
    pose proof (negotiate_rebinds k c) as H. unfold rebinds in H. simpl. lia.
  - apply negotiate_last.
Qed.

(** X8. The probe for a running roscore is made exactly once when
    [default_port] and [new_roscore] are false and no port is given, and not
    at all otherwise; the notice is printed exactly when that probe answers
    [False]. *)
Theorem probes_only_when_autodetecting (t : template) (k : kwargs) (c : collab) :
  length (filter is_probe (calls (init_of t k) c))
  = (if autodetecting k then 1 else 0)
  /\ length (filter is_notice (calls (init_of t k) c))
     = (if autodetecting k
        then match is_roscore_running c with
             | Ok answer => if is_False answer then 1 else 0
             | Raise _ => 0
             end
        else 0).
Proof.
  destruct (init_late t k c) as (rest & -> & Hlate).
  rewrite !filter_app, !length_app.
  rewrite (late_not_early rest is_probe), (late_not_early rest is_notice);
    try assumption; try now intros [].
  simpl. rewrite !Nat.add_0_r.
  unfold autodetecting. negotiate_branches k c.
  all: try (destruct (launch_roscore c _ _ _); now split).
  - unfold_monad; simpl.
    destruct (is_roscore_running c) as [v|e]; simpl; [|now split].
    destruct (is_False v); simpl; [|now split].
    rewrite launch_run; simpl. destruct (launch_roscore c _ _ _); now split.
  - unfold_monad; simpl. destruct (change_ros_master c _) as [[]|e]; now split.
Qed.

(** ** Which arguments matter *)

(** X9. With [default_port=True] the values of [new_roscore] and
    [roscore_port] are not looked at: two constructions that agree on the
    remaining arguments run identically, call for call. *)
Theorem default_port_overrides (t : template) (k k' : kwargs) (c : collab)
    (Hk : default_port k = true)
    (Hk' : default_port k' = true)
    (Hseed : seed k = seed k')
    (Hprompt : reset_env_prompt k = reset_env_prompt k')
    (Htime : action_cycle_time k = action_cycle_time k') :
  run (init_of t k) c = run (init_of t k') c.
Proof.
  unfold run.
  destruct t; simpl;
    unfold MyRealTaskEnv.__init__, MyRealTaskGoalEnv.__init__;
    rewrite ?goal_negotiate_same, !bind_run,
      (negotiate_default_port k Hk), (negotiate_default_port k' Hk'),
      Hseed, Hprompt, Htime;
    reflexivity.
Qed.

(** X10. In the new-process branch the node is named after the port the
    launcher answers with, not after the port that was asked for: the
    launcher is asked for [roscore_port] (11311 when there is none), the
    client is rebound to the answer, and the name is [TaskEnv_] followed by
    the answer. *)
Theorem named_after_launched_port
    (t : template) (k : kwargs) (c : collab) (answer : string)
    (Hdefault : default_port k = false)
    (Hnew : new_roscore k = true)
    (Hlaunch : launch_roscore c
                 (if is_None (roscore_port k) then PyInt 11311 else roscore_port k)
                 false false = Ok (PyStr answer))
    (Hrebind : change_ros_master c (PyStr answer) = Ok tt) :
  calls (negotiate_of t k) c
  = [CallLaunchRoscore
       (if is_None (roscore_port k) then PyInt 11311 else roscore_port k)
       false false;
     CallChangeRosMaster (PyStr answer)]
  /\ result (negotiate_of t k) c = Ok (PyStr answer)
  /\ node_name (object (init_of t k) c) = Some ("TaskEnv_" +:+ answer).
Proof.
  destruct (init_summary t k c) as (Hname & _).
  rewrite Hname, negotiate_of_plain.
  unfold result, calls, run.
  rewrite (negotiate_new_roscore k Hdefault Hnew), launch_run. cbv zeta.
  rewrite Hlaunch, Hrebind. now repeat split.
Qed.

Lemma as_plain_early (l : list event) :
  Forall early_call l -> map as_plain l = l.
Proof.
  induction 1 as [|e l He _ IH]; [reflexivity|].
  simpl. rewrite IH. now destruct e.
Qed.

(** X11. When the two base classes answer alike, the goal-conditioned
    constructor ends as the plain one does and makes the same calls in the
    same order, its base-class call standing where the plain one's stands. *)
Theorem templates_construct_alike (k : kwargs) (c : collab)
    (Hbase : forall p s r a,
               robot_goal_env_init c p s r a = robot_env_init c p s r a) :
  result (MyRealTaskGoalEnv.__init__ k) c = result (MyRealTaskEnv.__init__ k) c
  /\ map as_plain (calls (MyRealTaskGoalEnv.__init__ k) c)
     = calls (MyRealTaskEnv.__init__ k) c.
Proof.
  pose proof (init_cases Plain k c) as Hp.
  pose proof (init_cases Goal k c) as Hg.
  pose proof (as_plain_early _ (negotiate_early k c)) as Hearly.
  cbv zeta in Hp, Hg. unfold init_of, base_answer, base_call in Hp, Hg.
  unfold calls, result in *.
  destruct (fst (run (MyRealTaskEnv.negotiate k) c)) as [p|e].
  - destruct (assigned_name (Ok p)) as [n|].
    + destruct Hp as [_ Hp], Hg as [_ Hg].
      destruct (init_node c n true) as [[]|e1].
      * rewrite Hbase in Hg.
        destruct (robot_env_init c p _ _ _) as [[]|e2];
          destruct Hp as [-> ->], Hg as [-> ->];
          rewrite ?map_app, Hearly; now split.
      * destruct Hp as (-> & -> & _), Hg as (-> & -> & _).
        rewrite map_app, Hearly. now split.
    + rewrite Hp, Hg. simpl. now split.
  - rewrite Hp, Hg. simpl. now split.
Qed.

(** ** Spaces *)

Lemma init_spaces (t : template) (k : kwargs) (c : collab) :
  let o := object (init_of t k) c in
  match t with
  | Plain =>
      achieved_goal_space o = None /\ desired_goal_space o = None
      /\ observation_space o = None
  | Goal =>
      observation_space o = None
      \/ (achieved_goal_space o = Some MyRealTaskGoalEnv.goal_box
          /\ desired_goal_space o = Some MyRealTaskGoalEnv.goal_box
          /\ observation_space o
             = Some (MyRealTaskGoalEnv.observation_dict
                       MyRealTaskGoalEnv.goal_box MyRealTaskGoalEnv.goal_box))
  end.
Proof.
  unfold object, run. cbv zeta.
  destruct (negotiate_frame k c init_state) as [more Hst]. simpl in Hst.
  destruct t; simpl;
    unfold MyRealTaskEnv.__init__, MyRealTaskGoalEnv.__init__;
    rewrite ?goal_negotiate_same, bind_run;
    destruct (MyRealTaskEnv.negotiate k c init_state) as [[p|e] st1];
    simpl in Hst; subst st1; simpl; try (now repeat split); try now left.
  all: unfold MyRealTaskEnv.assign_node_name, MyRealTaskGoalEnv.assign_node_name,
         MyRealTaskGoalEnv.declare_spaces; unfold_monad.
  all: destruct p; simpl; try (now repeat split); try now left.
  all: destruct (init_node c _ _) as [[]|e1]; simpl;
    try (now repeat split); try now left.
  all: first [ destruct (robot_env_init c _ _ _ _) as [[]|e2]
             | destruct (robot_goal_env_init c _ _ _ _) as [[]|e2] ];
    simpl; try (now repeat split); right; now repeat split.
Qed.

(** X12. The plain constructor declares no space at all, in any run: after
    it, [observation_space], [achieved_goal_space] and [desired_goal_space]
    are still unset on the object. *)
Theorem plain_declares_no_spaces (k : kwargs) (c : collab) :
  observation_space (object (MyRealTaskEnv.__init__ k) c) = None
  /\ achieved_goal_space (object (MyRealTaskEnv.__init__ k) c) = None
  /\ desired_goal_space (object (MyRealTaskEnv.__init__ k) c) = None.
Proof.
  destruct (init_spaces Plain k c) as (Ha & Hd & Ho). now repeat split.
Qed.

(** X13. After a completed goal-conditioned construction the entries
    [achieved_goal] and [desired_goal] of the observation dictionary are the
    spaces held in the attributes [achieved_goal_space] and
    [desired_goal_space], both the unit box of shape (3,); the entry
    [observation] is the unit box of shape (5,) with dtype float32. *)
Theorem goal_spaces_match_attributes (k : kwargs) (c : collab)
    (Hconstructed : result (MyRealTaskGoalEnv.__init__ k) c = Ok tt) :
  exists entries : gmap string space,
    observation_space (object (MyRealTaskGoalEnv.__init__ k) c)
    = Some (SDict entries)
    /\ entries !! "achieved_goal"
       = achieved_goal_space (object (MyRealTaskGoalEnv.__init__ k) c)
    /\ entries !! "desired_goal"
       = desired_goal_space (object (MyRealTaskGoalEnv.__init__ k) c)
    /\ entries !! "achieved_goal" = Some (SBox (Box 0 1 [3%nat] None))
    /\ entries !! "desired_goal" = Some (SBox (Box 0 1 [3%nat] None))
    /\ entries !! "observation"
       = Some (SBox (Box 0 1 [5%nat] (Some "np.float32"))).
Proof.
  destruct (goal_spaces_declared k c) as [Hspace Hdone].
  destruct (Hdone Hconstructed) as (n & Hn & Hreg).
  rewrite Hn, Hreg in Hspace.
  pose proof (init_spaces Goal k c) as Hs. cbv zeta in Hs.
  change (init_of Goal k) with (MyRealTaskGoalEnv.__init__ k) in Hs.
  destruct Hs as [Hnone | (Ha & Hd & Ho)]; [congruence|].
  eexists. split; [exact Ho|]. rewrite Ha, Hd.
  repeat split; reflexivity.
Qed.

(** ** The optional hook *)

(** X14. [_get_params], documented as optional, is a stub like the required
    extension points, in both templates: on an instance of a subclass that
    does not define it, calling it without argument raises
    [NotImplementedError], calling it with any argument raises [TypeError],
    and either way nothing changes. *)
Theorem optional_get_params_raises
    (t : template) (subclass : gmap string pymethod) (args : list pyval)
    (c : collab) (st : state)
    (Hnot_overridden : subclass !! "_get_params" = None) :
  exists run : M pyval,
    call_method subclass (extension_points_of t) "_get_params" args = Some run
    /\ run c st
       = (match args with
          | [] => Raise NotImplementedError
          | _ :: _ => Raise TypeError
          end, st).
Proof.
  unfold call_method, resolve.
  rewrite (lookup_union_r subclass (extension_points_of t) _ Hnot_overridden).
  destruct t; simpl; eexists; (split; [reflexivity|]); now destruct args.
Qed.

(** ** The further properties at work on the sample worlds *)

Lemma construction_completes_witness :
  result (MyRealTaskGoalEnv.__init__ new_roscore_kwargs)
    (answering_world (PyStr "11312"))
  = Ok tt.
Proof.
  apply (construction_completes Goal new_roscore_kwargs
           (answering_world (PyStr "11312"))).
  - repeat split; intros; try reflexivity; eexists; reflexivity.
  - right. exists "11312". reflexivity.
Defined.

Lemma completed_construction_calls_witness :
  exists (p : pyval) (n : string),
    result (MyRealTaskEnv.negotiate no_kwargs) (text_world true) = Ok p
    /\ node_name (object (MyRealTaskEnv.__init__ no_kwargs) (text_world true))
       = Some n
    /\ calls (MyRealTaskEnv.__init__ no_kwargs) (text_world true)
       = calls (MyRealTaskEnv.negotiate no_kwargs) (text_world true)
         ++ [CallInitNode n true;
             LogInfo "Starting Custom Task Env";
             CallRobotEnvInit p PyNone false (PyFloat 0);
             LogInfo "Finished Init of Custom Task Env"].
Proof.
  apply (completed_construction_calls Plain no_kwargs (text_world true)).
  vm_compute. reflexivity.
Defined.

Lemma registration_failure_aborts_witness :
  result (MyRealTaskGoalEnv.__init__ attach_kwargs) unregistered_world
  = Raise (ExternalError "ROSInitException")
  /\ calls (MyRealTaskGoalEnv.__init__ attach_kwargs) unregistered_world
     = calls (MyRealTaskGoalEnv.negotiate attach_kwargs) unregistered_world
       ++ [CallInitNode "TaskEnv_11312" true]
  /\ observation_space
       (object (MyRealTaskGoalEnv.__init__ attach_kwargs) unregistered_world)
     = None.
Proof.
  apply (registration_failure_aborts Goal attach_kwargs unregistered_world
           "TaskEnv_11312" (ExternalError "ROSInitException")).
  - vm_compute. reflexivity.
  - reflexivity.
Defined.

Lemma non_text_port_raises_late_witness :
  result (MyRealTaskEnv.__init__ int_port_kwargs) (text_world true)
  = Raise TypeError
  /\ calls (MyRealTaskEnv.__init__ int_port_kwargs) (text_world true)
     = calls (MyRealTaskEnv.negotiate int_port_kwargs) (text_world true)
  /\ object (MyRealTaskEnv.__init__ int_port_kwargs) (text_world true) = new_obj.
Proof.
  apply (non_text_port_raises_late Plain int_port_kwargs (text_world true)
           (PyInt 11312)).
  - reflexivity.
  - discriminate.
  - intros p. discriminate.
Defined.

Lemma negotiation_failure_aborts_witness :
  result (MyRealTaskEnv.__init__ no_kwargs) launchless_world
  = Raise (ExternalError "roscore")
  /\ calls (MyRealTaskEnv.__init__ no_kwargs) launchless_world
     = calls (MyRealTaskEnv.negotiate no_kwargs) launchless_world
  /\ object (MyRealTaskEnv.__init__ no_kwargs) launchless_world = new_obj.
Proof.
  apply (negotiation_failure_aborts Plain no_kwargs launchless_world
           (ExternalError "roscore")).
  reflexivity.
Defined.

Lemma default_port_overrides_witness :
  run (MyRealTaskEnv.__init__ all_flags_kwargs) (text_world true)
  = run (MyRealTaskEnv.__init__ default_port_kwargs) (text_world true).
Proof.
  apply (default_port_overrides Plain all_flags_kwargs default_port_kwargs
           (text_world true));
    reflexivity.
Defined.

Lemma named_after_launched_port_witness :
  calls (MyRealTaskEnv.negotiate new_roscore_kwargs)
    (answering_world (PyStr "40123"))
  = [CallLaunchRoscore (PyStr "11312") false false;
     CallChangeRosMaster (PyStr "40123")]
  /\ result (MyRealTaskEnv.negotiate new_roscore_kwargs)
       (answering_world (PyStr "40123"))
     = Ok (PyStr "40123")
  /\ node_name (object (MyRealTaskEnv.__init__ new_roscore_kwargs)
                  (answering_world (PyStr "40123")))
     = Some "TaskEnv_40123".
Proof.
  apply (named_after_launched_port Plain new_roscore_kwargs
           (answering_world (PyStr "40123")) "40123");
    reflexivity.
Defined.

Lemma templates_construct_alike_witness :
  result (MyRealTaskGoalEnv.__init__ no_kwargs) (text_world true)
  = result (MyRealTaskEnv.__init__ no_kwargs) (text_world true)
  /\ map as_plain (calls (MyRealTaskGoalEnv.__init__ no_kwargs) (text_world true))
     = calls (MyRealTaskEnv.__init__ no_kwargs) (text_world true).
Proof.
  apply (templates_construct_alike no_kwargs (text_world true)).
  intros p s r a. reflexivity.
Defined.

Lemma goal_spaces_match_attributes_witness :
  exists entries : gmap string space,
    observation_space
      (object (MyRealTaskGoalEnv.__init__ attach_kwargs) (text_world true))
    = Some (SDict entries)
    /\ entries !! "achieved_goal"
       = achieved_goal_space
           (object (MyRealTaskGoalEnv.__init__ attach_kwargs) (text_world true))
    /\ entries !! "desired_goal"
       = desired_goal_space
           (object (MyRealTaskGoalEnv.__init__ attach_kwargs) (text_world true))
    /\ entries !! "achieved_goal" = Some (SBox (Box 0 1 [3%nat] None))
    /\ entries !! "desired_goal" = Some (SBox (Box 0 1 [3%nat] None))
    /\ entries !! "observation"
       = Some (SBox (Box 0 1 [5%nat] (Some "np.float32"))).
Proof.
  apply (goal_spaces_match_attributes attach_kwargs (text_world true)).
  vm_compute. reflexivity.
Defined.

Lemma optional_get_params_raises_witness :
  exists run : M pyval,
    call_method ∅ MyRealTaskGoalEnv.extension_points "_get_params" [PyInt 1]
    = Some run
    /\ run (text_world true) init_state = (Raise TypeError, init_state).
Proof.
  apply (optional_get_params_raises Goal ∅ [PyInt 1] (text_world true) init_state).
  reflexivity.
Defined.
